(** * write-hand: the job lifecycle of [app.py]

    A shallow embedding of the Flask application in [src/app.py]: the input
    sanitizer, the upload validator, the generation request around the
    external [handwrite] tool, and the two retrieval endpoints.

    Python strings are sequences of Unicode code points, modelled as
    [list N].  The request handlers thread a [World] (file system, flashed
    messages, live processes, a log of effects) through a small state
    monad. *)

From Stdlib Require Import NArith ZArith String Ascii List Lia Bool.
From stdpp Require Import base list gmap.

Open Scope N_scope.

(** ** Python strings *)

Definition pystr := list N.

(** An ASCII literal as a Python string. *)
Fixpoint str (s : string) : pystr :=
  match s with
  | EmptyString => []
  | String c r => N_of_ascii c :: str r
  end.

(** The parts of the Unicode character database that the built-in string
    methods consult outside the ASCII range.  They are data of the Python
    runtime, not of this repository, and every result below holds whatever
    these tables say. *)
Class Unicode := {
  uc_isalnum : N → bool;
  uc_isspace : N → bool;
  uc_lower : pystr → pystr
}.

Definition in_range (lo hi c : N) : bool := (lo <=? c) && (c <=? hi).

Definition is_ascii (c : N) : bool := c <? 128.

(** [str.isalnum] on one character: ASCII digits and letters, and beyond
    ASCII whatever the character database classifies as alphanumeric. *)
Definition isalnum `{Unicode} (c : N) : bool :=
  if is_ascii c
  then in_range 48 57 c || in_range 65 90 c || in_range 97 122 c
  else uc_isalnum c.

(** [str.isspace] on one character: TAB..CR, FS..US and SPACE in ASCII. *)
Definition isspace `{Unicode} (c : N) : bool :=
  if is_ascii c
  then in_range 9 13 c || in_range 28 31 c || (c =? 32)
  else uc_isspace c.

Definition ascii_lower (c : N) : N :=
  if in_range 65 90 c then c + 32 else c.

(** [str.lower]: character-wise on ASCII strings; on other strings the
    full Unicode lowering (which is context sensitive) is left to the
    table. *)
Definition lower `{Unicode} (s : pystr) : pystr :=
  if forallb is_ascii s then map ascii_lower s else uc_lower s.

Fixpoint lstrip `{Unicode} (s : pystr) : pystr :=
  match s with
  | [] => []
  | c :: t => if isspace c then lstrip t else s
  end.

Fixpoint rstrip `{Unicode} (s : pystr) : pystr :=
  match s with
  | [] => []
  | c :: t =>
      match rstrip t with
      | [] => if isspace c then [] else [c]
      | r => c :: r
      end
  end.

(** [str.strip()] without argument: whitespace off both ends. *)
Definition strip `{Unicode} (s : pystr) : pystr := rstrip (lstrip s).

(** [c in (" ", "-", "_")] *)
Definition in_chars (c : N) (cs : list N) : bool :=
  existsb (N.eqb c) cs.

Definition SPACE : N := 32.
Definition HYPHEN : N := 45.
Definition UNDERSCORE : N := 95.
Definition DOT : N := 46.
Definition SLASH : N := 47.
Definition SEMICOLON : N := 59.

Definition safe_char `{Unicode} (c : N) : bool :=
  isalnum c || in_chars c [SPACE; HYPHEN; UNDERSCORE].

(** [sanitize_text], app.py:32-34. *)
Definition sanitize_text `{Unicode} (value : pystr) : pystr :=
  strip (List.filter safe_char value).

(** [ALLOWED_EXTENSIONS], app.py:26. *)
Definition ALLOWED_EXTENSIONS : list pystr :=
  [str "png"; str "jpg"; str "jpeg"].

(** [s.rsplit(sep, 1)] for a one-character separator: split at the last
    occurrence, [None] when there is none. *)
Fixpoint rsplit_last (sep : N) (s : pystr) : option (pystr * pystr) :=
  match s with
  | [] => None
  | c :: t =>
      match rsplit_last sep t with
      | Some (a, b) => Some (c :: a, b)
      | None => if c =? sep then Some ([], t) else None
      end
  end.

Definition rsplit1 (sep : N) (s : pystr) : list pystr :=
  match rsplit_last sep s with
  | Some (a, b) => [a; b]
  | None => [s]
  end.

Definition pystr_eqb (a b : pystr) : bool := bool_decide (a = b).

Definition in_strs (s : pystr) (l : list pystr) : bool :=
  existsb (pystr_eqb s) l.

(** [allowed_file], app.py:28-29.  The index [1] is only evaluated when
    the name holds a dot, as [and] short-circuits. *)
Definition allowed_file `{Unicode} (filename : pystr) : bool :=
  in_chars DOT filename &&
  match rsplit1 DOT filename !! 1%nat with
  | Some ext => in_strs (lower ext) ALLOWED_EXTENSIONS
  | None => false
  end.

(** ** Paths ([pathlib.PurePosixPath])

    A path is the list of its [.parts]; an absolute path starts with the
    root part ["/"]. *)

Abbreviation Path := (list pystr).

(** [s.split(sep)] for a one-character separator. *)
Fixpoint split (sep : N) (s : pystr) : list pystr :=
  match s with
  | [] => [[]]
  | c :: t =>
      if c =? sep then [] :: split sep t
      else match split sep t with
           | h :: r => (c :: h) :: r
           | [] => [[c]]
           end
  end.

(** The root of a path string: ["/"], or ["//"] for exactly two leading
    slashes (POSIX leaves that case to the implementation). *)
Definition root_of (s : pystr) : pystr :=
  match s with
  | 47 :: 47 :: 47 :: _ => [SLASH]
  | 47 :: 47 :: _ => [SLASH; SLASH]
  | 47 :: _ => [SLASH]
  | _ => []
  end.

(** The components of a path string: empty components and ["."] vanish,
    [".."] stays. *)
Definition name_parts (s : pystr) : list pystr :=
  List.filter (fun p => negb (pystr_eqb p [] || pystr_eqb p [DOT]))
              (split SLASH s).

(** [p / s]: an absolute right operand replaces the left one. *)
Definition joinpath (p : Path) (s : pystr) : Path :=
  match root_of s with
  | [] => p ++ name_parts s
  | r => r :: name_parts s
  end.

Infix "//" := joinpath (at level 40, left associativity).

Fixpoint join (sep : pystr) (l : list pystr) : pystr :=
  match l with
  | [] => []
  | [x] => x
  | x :: r => x ++ sep ++ join sep r
  end.

(** [str(p)] *)
Definition path_str (p : Path) : pystr :=
  match p with
  | [] => [DOT]
  | r :: rest =>
      if pystr_eqb (root_of r) r && negb (pystr_eqb r [])
      then r ++ join [SLASH] rest
      else join [SLASH] p
  end.

(** [p.parent] *)
Definition parent (p : Path) : Path := removelast p.

(** ** The world a request runs in *)

(** A live process with the processes it has started. *)
#[warnings="-register-all"]
Inductive Proc := Process (pid : N) (children : list Proc).

Definition proc_pid (p : Proc) : N := let 'Process n _ := p in n.
Definition proc_children (p : Proc) : list Proc := let 'Process _ k := p in k.

(** The keyword arguments of one [subprocess.run] call. *)
Record RunCall := {
  args : list pystr;
  shell : bool;
  capture_output : bool;
  text : bool;
  timeout : N
}.

Inductive Event :=
| Saved (p : Path)
| Unlinked (p : Path)
| Ran (call : RunCall).

Record World := {
  fs : gmap Path (list N);     (* regular files and their bytes *)
  flashes : list pystr;        (* messages queued by [flash] *)
  procs : list Proc;           (* children of the server still alive *)
  log : list Event;            (* effects of the handlers, oldest first *)
  draws : N                    (* draws taken from the entropy source *)
}.

Definition set_fs (f : gmap Path (list N) → gmap Path (list N)) (w : World) :=
  {| fs := f (fs w); flashes := flashes w; procs := procs w;
     log := log w; draws := draws w |}.
Definition set_flashes (f : list pystr → list pystr) (w : World) :=
  {| fs := fs w; flashes := f (flashes w); procs := procs w;
     log := log w; draws := draws w |}.
Definition set_procs (f : list Proc → list Proc) (w : World) :=
  {| fs := fs w; flashes := flashes w; procs := f (procs w);
     log := log w; draws := draws w |}.
Definition emit (e : Event) (w : World) :=
  {| fs := fs w; flashes := flashes w; procs := procs w;
     log := log w ++ [e]; draws := draws w |}.
Definition set_draws (f : N → N) (w : World) :=
  {| fs := fs w; flashes := flashes w; procs := procs w;
     log := log w; draws := f (draws w) |}.

(** What a child process does: the behaviour of the opaque external
    tool. *)
Record Execution := {
  child : N;                   (* pid of the child process *)
  runtime : option N;          (* seconds until it exits by itself, if ever *)
  returncode : Z;
  stdout : pystr;
  stderr : pystr;
  files : gmap Path (list N);  (* the file system when control comes back *)
  started : list Proc          (* what the child has started and left running *)
}.

(** What comes of starting one command line. *)
Inductive Answer :=
| NoSuchFile                   (* no executable of that name on the path *)
| NotExecutable                (* the file is there but may not be run *)
| Started (e : Execution)      (* the child runs; what it writes is text *)
| Garbled (e : Execution).     (* the child runs; what it writes is not
                                  text in the expected encoding, and the
                                  two output fields are not read *)

(** The deployment: where [app.py] lives, the entropy source behind
    [os.urandom], and what executing an argument vector does. *)
Class Deployment := {
  BASE_DIR : Path;
  urandom16 : N → N;
  execute : list pystr → gmap Path (list N) → Answer
}.

(** ** Exceptions and the handler monad *)

Inductive Exn :=
| FileNotFoundError
| PermissionError
| UnicodeDecodeError
| TimeoutExpired
| IndexError
| HTTPException (code : N) (description : option pystr).

Definition M (A : Type) : Type := World → (Exn + A) * World.

#[export] Instance M_ret : MRet M := λ A a w, (inr a, w).
#[export] Instance M_bind : MBind M := λ A B f m w,
  match m w with
  | (inl e, w') => (inl e, w')
  | (inr a, w') => f a w'
  end.

Definition raise {A} (e : Exn) : M A := λ w, (inl e, w).

(** [try: body except ...: handler] *)
Definition try_except {A} (body : M A) (handler : Exn → option (M A)) : M A :=
  λ w, match body w with
       | (inl e, w') =>
           match handler e with
           | Some h => h w'
           | None => (inl e, w')
           end
       | r => r
       end.

Definition modify (f : World → World) : M unit := λ w, (inr tt, f w).
Definition gets {A} (f : World → A) : M A := λ w, (inr (f w), w).

Definition when (b : bool) (m : M unit) : M unit := if b then m else mret tt.

(** ** Configuration, app.py:14-26 *)

Definition UPLOAD_DIR `{Deployment} : Path := BASE_DIR // str "uploads".
Definition OUTPUT_DIR `{Deployment} : Path := BASE_DIR // str "outputs".
Definition TEMPLATE_PNG `{Deployment} : Path := BASE_DIR // str "template.jpg".
Definition MAX_UPLOAD_BYTES : N := 5 * 1024 * 1024.

(** ** Library calls the handlers make *)

(** [p.exists()] *)
Definition path_exists (p : Path) : M bool :=
  gets (λ w, bool_decide (is_Some (fs w !! p))).

(** [p.unlink(missing_ok=...)] *)
Definition unlink (p : Path) (missing_ok : bool) : M unit := λ w,
  match fs w !! p with
  | Some _ => (inr tt, emit (Unlinked p) (set_fs (delete p) w))
  | None => if missing_ok then (inr tt, w) else (inl FileNotFoundError, w)
  end.

(** An uploaded file part ([werkzeug.datastructures.FileStorage]). *)
Record FileStorage := { file_filename : pystr; stream : list N }.

(** [file.save(dst)] *)
Definition save (file : FileStorage) (dst : Path) : M unit :=
  modify (λ w, emit (Saved dst) (set_fs (insert dst (stream file)) w)).

(** [flash(msg)] *)
Definition flash (msg : pystr) : M unit :=
  modify (set_flashes (λ l, l ++ [msg])).

Definition hex_digit (d : N) : N :=
  if d <? 10 then 48 + d else 87 + d.

(** The [k] low hexadecimal digits of [n], most significant first. *)
Fixpoint hex_digits (k : nat) (n : N) : pystr :=
  match k with
  | O => []
  | S k' => hex_digits k' (n / 16) ++ [hex_digit (n mod 16)]
  end.

(** ['%032x' % n] for [n < 2^128]. *)
Definition hex32 (n : N) : pystr := hex_digits 32 n.

(** The integer of [uuid.UUID(bytes=..., version=4)]: sixteen random
    bytes with the RFC 4122 variant and the version number set. *)
Definition uuid4_int (r : N) : N :=
  let i := r mod 2 ^ 128 in
  let i := N.lor (N.ldiff i (N.shiftl 0xc000 48)) (N.shiftl 0x8000 48) in
  N.lor (N.ldiff i (N.shiftl 0xf000 64)) (N.shiftl 4 76).

(** [uuid.uuid4().hex] *)
Definition uuid4_hex `{Deployment} : M pystr := λ w,
  (inr (hex32 (uuid4_int (urandom16 (draws w)))), set_draws N.succ w).

Record CompletedProcess := {
  cp_returncode : Z;
  cp_stdout : pystr;
  cp_stderr : pystr
}.

(** The first child of the server with this pid ends; the processes it
    had started are not signalled and live on. *)
Fixpoint reap (pid : N) (ps : list Proc) : list Proc :=
  match ps with
  | [] => []
  | p :: r =>
      if proc_pid p =? pid then proc_children p ++ r else p :: reap pid r
  end.

Definition expired (limit : N) (needed : option N) : bool :=
  match needed with
  | None => true
  | Some d => limit <? d
  end.

(** [subprocess.run(args, capture_output=..., text=..., timeout=...)]
    without a shell.  When the executable cannot be started, the error of
    the failed [exec] is raised before any process exists:
    [FileNotFoundError] when there is no file of that name,
    [PermissionError] when the file may not be run.  Otherwise the child
    runs; when the timeout expires first, [run] kills the child
    ([Popen.kill], a signal to that one pid), waits for it and raises
    [TimeoutExpired].  In text mode the output of a child that ended in
    time is decoded, which raises [UnicodeDecodeError] when it is not
    text. *)
Definition subprocess_run `{Deployment} (call : RunCall)
  : M CompletedProcess := λ w,
  let w := emit (Ran call) w in
  let ran (e : Execution) (decodes : bool) :=
    let w := set_procs (cons (Process (child e) (started e)))
               (set_fs (λ _, files e) w) in
    if expired (timeout call) (runtime e)
    then (inl TimeoutExpired, set_procs (reap (child e)) w)
    else if text call && negb decodes
    then (inl UnicodeDecodeError, set_procs (reap (child e)) w)
    else (inr {| cp_returncode := returncode e;
                 cp_stdout := stdout e;
                 cp_stderr := stderr e |},
          set_procs (reap (child e)) w) in
  match execute (args call) (fs w) with
  | NoSuchFile => (inl FileNotFoundError, w)
  | NotExecutable => (inl PermissionError, w)
  | Started e => ran e true
  | Garbled e => ran e false
  end.

(** ** Requests and responses *)

Inductive Method := GET | POST | HEAD.

Record Request := {
  method : Method;
  files_ : list (pystr * FileStorage);   (* [request.files] *)
  form : list (pystr * pystr)            (* [request.form] *)
}.

(** First value stored under a key of a [MultiDict]. *)
Fixpoint multi_get {V} (key : pystr) (d : list (pystr * V)) : option V :=
  match d with
  | [] => None
  | (k, v) :: r => if pystr_eqb k key then Some v else multi_get key r
  end.

(** [d.get(key, default)] *)
Definition get_or {V} (d : list (pystr * V)) (key : pystr) (default : V) : V :=
  match multi_get key d with
  | Some v => v
  | None => default
  end.

Inductive Endpoint :=
| url_generate
| url_download_font (job_id : pystr).

Inductive Body :=
| Rendered (template : pystr) (job_id : option pystr)
| Redirect (location : Endpoint)
| Attachment (p : Path) (download_name : pystr) (data : list N)
| Status (code : N).

Record Response := {
  body : Body;
  on_close : list (M unit);      (* registered with [call_on_close] *)
  direct_passthrough : bool      (* the body is a file handed to the server *)
}.

Definition respond (b : Body) : M Response :=
  mret {| body := b; on_close := []; direct_passthrough := false |}.

Definition render_template (name : pystr) (job_id : option pystr) : M Response :=
  respond (Rendered name job_id).

Definition redirect (location : Endpoint) : M Response :=
  respond (Redirect location).

(** [abort(code, description=...)] *)
Definition abort {A} (code : N) (description : option pystr) : M A :=
  raise (HTTPException code description).

(** [werkzeug.security.safe_join]: no absolute name, no way up. *)
Definition safe_join (directory : Path) (name : pystr) : option Path :=
  if negb (pystr_eqb (root_of name) []) || in_strs (str "..") (split SLASH name)
  then None
  else Some (directory // name).

(** [send_from_directory(directory, name, as_attachment=True,
    download_name=...)]: 404 unless the joined path is a regular file;
    the response of [send_file] passes the open file through. *)
Definition send_from_directory (directory : Path) (name download_name : pystr)
  : M Response :=
  match safe_join directory name with
  | None => abort 404 None
  | Some p =>
      data ← gets (λ w, fs w !! p);
      match data with
      | None => abort 404 None
      | Some d =>
          mret {| body := Attachment p download_name d; on_close := [];
                  direct_passthrough := true |}
      end
  end.

(** [@response.call_on_close] *)
Definition call_on_close (r : Response) (f : M unit) : Response :=
  {| body := body r; on_close := on_close r ++ [f];
     direct_passthrough := direct_passthrough r |}.

(** ** The views *)

(** Truth value of a string: only the empty string is false. *)
Definition truthy (s : pystr) : bool :=
  match s with
  | [] => false
  | _ => true
  end.

(** [a or b] on strings *)
Definition py_or (a b : pystr) : pystr := if truthy a then a else b.

(** The command line of app.py:97-104. *)
Definition cmd `{Deployment} (img_path : Path) (family style filename : pystr)
  : list pystr :=
  [ str "handwrite";
    path_str img_path;
    path_str OUTPUT_DIR;
    str "--family"; family;
    str "--style"; style;
    str "--filename"; filename ].

(** The [subprocess.run] call of app.py:107-112: no [shell=True]. *)
Definition run_call (argv : list pystr) : RunCall :=
  {| args := argv; shell := false; capture_output := true; text := true;
     timeout := 120 |}.

(** [generate], app.py:53-135.  The [return] statements inside the two
    [except] clauses leave the view; the [try] statement therefore yields
    either that early response or the completed process. *)
Definition generate `{Unicode} `{Deployment} (request : Request) : M Response :=
  match method request with
  | GET => render_template (str "generate.html") None
  | _ =>
  match multi_get (str "pngfile") (files_ request) with
  | None =>
      flash (str "No file part in the request.");;
      redirect url_generate
  | Some file =>
  if pystr_eqb (file_filename file) [] then
    flash (str "No file selected.");;
    redirect url_generate
  else if negb (allowed_file (file_filename file)) then
    flash (str "Only JPG or PNG files are accepted.");;
    redirect url_generate
  else
  let family := sanitize_text (get_or (form request) (str "family") []) in
  let style := sanitize_text (get_or (form request) (str "style") []) in
  let filename := sanitize_text (get_or (form request) (str "filename") []) in
  if negb (truthy family) then
    flash (str "Font family name is required.");;
    redirect url_generate
  else if negb (truthy style) then
    flash (str "Font style is required.");;
    redirect url_generate
  else if negb (truthy filename) then
    flash (str "File name is required.");;
    redirect url_generate
  else
  job_id ← uuid4_hex;
  ext ← match rsplit1 DOT (file_filename file) !! 1%nat with
         | Some suffix => mret (lower suffix)
         | None => raise IndexError
         end;
  let img_path := UPLOAD_DIR // (job_id ++ str "." ++ ext) in
  save file img_path;;
  outcome ← try_except
      (result ← subprocess_run (run_call (cmd img_path family style filename));
       mret (inr result))
      (λ e, match e with
            | FileNotFoundError => Some (
                unlink img_path true;;
                flash (str "handwrite is not installed. Run: pip install handwrite");;
                r ← redirect url_generate;
                mret (inl r))
            | TimeoutExpired => Some (
                unlink img_path true;;
                flash (str "Font generation timed out. Please try again.");;
                r ← redirect url_generate;
                mret (inl r))
            | _ => None
            end);
  match outcome with
  | inl early => mret early
  | inr result =>
      unlink img_path true;;
      if negb (cp_returncode result =? 0)%Z then
        flash (str "handwrite failed: " ++
               py_or (strip (cp_stderr result)) (strip (cp_stdout result)));;
        redirect url_generate
      else
      let ttf_path := OUTPUT_DIR // (filename ++ str ".ttf") in
      found ← path_exists ttf_path;
      if negb found then
        flash (str "handwrite ran but produced no output file.");;
        redirect url_generate
      else
      redirect (url_download_font filename)
  end
  end
  end.

(** [download_font], app.py:142-153. *)
Definition download_font `{Unicode} `{Deployment} (job_id : pystr) : M Response :=
  let safe := sanitize_text job_id in
  when (negb (truthy safe) || negb (pystr_eqb safe job_id)) (abort 400 None);;
  let ttf_path := OUTPUT_DIR // (job_id ++ str ".ttf") in
  found ← path_exists ttf_path;
  when (negb found)
    (abort 404
       (Some (str "Font not found. It may have already been downloaded.")));;
  render_template (str "download.html") (Some job_id).

(** [serve_font_file], app.py:156-173. *)
Definition serve_font_file `{Unicode} `{Deployment} (job_id : pystr) : M Response :=
  let safe := sanitize_text job_id in
  when (negb (truthy safe) || negb (pystr_eqb safe job_id)) (abort 400 None);;
  let ttf_path := OUTPUT_DIR // (job_id ++ str ".ttf") in
  found ← path_exists ttf_path;
  when (negb found) (abort 404 None);;
  response ← send_from_directory OUTPUT_DIR (job_id ++ str ".ttf")
               (job_id ++ str ".ttf");
  let cleanup := unlink ttf_path true in
  mret (call_on_close response cleanup).

(** [index], app.py:40-42. *)
Definition index : M Response := render_template (str "index.html") None.

(** [download_template], app.py:45-49.  Without a [download_name] the
    attachment carries the name of the file. *)
Definition download_template `{Deployment} : M Response :=
  found ← path_exists TEMPLATE_PNG;
  when (negb found)
    (abort 404 (Some (str "template.jpg not found next to app.py")));;
  send_from_directory BASE_DIR (str "template.jpg") (str "template.jpg").

(** ** The framework around a view *)

(** Flask turns an [HTTPException] into the response with its status and
    any other exception into a 500. *)
Definition dispatch (view : M Response) (w : World) : Response * World :=
  match view w with
  | (inr r, w') => (r, w')
  | (inl (HTTPException code _), w') =>
      ({| body := Status code; on_close := [];
          direct_passthrough := false |}, w')
  | (inl _, w') =>
      ({| body := Status 500; on_close := [];
          direct_passthrough := false |}, w')
  end.

(** [Response.close()]: the registered functions run in order. *)
Definition close (r : Response) (w : World) : World :=
  fold_left (λ w f, snd (f w)) (on_close r) w.

(** How the sending of a response body ends. *)
Inductive Transfer := Completed | ClientAborted.

(** One [GET] request from its arrival to the end of the transfer.  The
    server is handed an iterator over the body and closes that when the
    transfer ends, however it ends.  For an ordinary response the iterator
    closes the response with it; for a response that passes a file
    through, the iterator is the file itself, the response is never
    closed, and what was registered with [call_on_close] does not run. *)
Definition serve (view : M Response) (t : Transfer) (w : World)
  : Response * World :=
  let (r, w') := dispatch view w in
  match t with
  | Completed | ClientAborted =>
      (r, if direct_passthrough r then w' else close r w')
  end.

Definition status_of (r : Response) : N :=
  match body r with
  | Rendered _ _ => 200
  | Attachment _ _ _ => 200
  | Redirect _ => 302
  | Status code => code
  end.

(** ** Vocabulary of the statements *)

(** The ASCII characters the sanitizer lets through: digits, letters,
    space, hyphen, underscore. *)
Definition ascii_safe (c : N) : bool :=
  in_range 48 57 c || in_range 65 90 c || in_range 97 122 c
  || in_chars c [SPACE; HYPHEN; UNDERSCORE].

(** A letter or digit in the sense of [str.isalnum], or one of the three
    extra characters. *)
Definition allowed_class `{Unicode} (c : N) : Prop :=
  isalnum c = true ∨ c = SPACE ∨ c = HYPHEN ∨ c = UNDERSCORE.

(** An ASCII character of the string is a safe one. *)
Definition ascii_part_safe (s : pystr) : Prop :=
  Forall (λ c, is_ascii c = false ∨ ascii_safe c = true) s.

(** No whitespace at either end. *)
Definition stripped `{Unicode} (s : pystr) : Prop :=
  match head s with Some c => isspace c = false | None => True end ∧
  match last s with Some c => isspace c = false | None => True end.

(** [p] is an entry directly inside [dir]: one more component, which is a
    real name (no separator in it, not empty, not ["."], not [".."]). *)
Definition direct_child (dir p : Path) : Prop :=
  ∃ name, p = dir ++ [name] ∧ (SLASH ∉ name) ∧ name ≠ [] ∧
          name ≠ [DOT] ∧ name ≠ [DOT; DOT].

(** ** Vocabulary for [generate] *)

(** A text input of the form after sanitizing, app.py:73-75. *)
Definition field `{Unicode} (request : Request) (name : string) : pystr :=
  sanitize_text (get_or (form request) (str name) []).

(** The upload of a submission that passes every check of app.py:54-86;
    [None] for a [GET] and for a submission that fails one of them. *)
Definition accepted `{Unicode} (request : Request) : option FileStorage :=
  match method request with
  | GET => None
  | _ =>
      match multi_get (str "pngfile") (files_ request) with
      | None => None
      | Some file =>
          if negb (pystr_eqb (file_filename file) [])
             && allowed_file (file_filename file)
             && truthy (field request "family")
             && truthy (field request "style")
             && truthy (field request "filename")
          then Some file
          else None
      end
  end.

(** What follows the last dot of a name, lowered. *)
Definition stored_ext `{Unicode} (name : pystr) : pystr :=
  match rsplit_last DOT name with
  | Some (_, suffix) => lower suffix
  | None => []
  end.

(** The identifier drawn for a job started in world [w]. *)
Definition job_id_of `{Deployment} (w : World) : pystr :=
  hex32 (uuid4_int (urandom16 (draws w))).

(** Where the upload of a job started in world [w] is stored. *)
Definition upload_path `{Unicode} `{Deployment} (file : FileStorage) (w : World)
  : Path :=
  UPLOAD_DIR ++ [job_id_of w ++ str "." ++ stored_ext (file_filename file)].

(** Where the tool is expected to leave the font of a job. *)
Definition artifact_path `{Deployment} (key : pystr) : Path :=
  OUTPUT_DIR ++ [key ++ str ".ttf"].

(** The call made for an accepted request, and what the tool answers. *)
Definition tool_call `{Unicode} `{Deployment} (request : Request)
    (file : FileStorage) (w : World) : RunCall :=
  run_call (cmd (upload_path file w) (field request "family")
              (field request "style") (field request "filename")).

Definition tool_answer `{Unicode} `{Deployment} (request : Request)
    (file : FileStorage) (w : World) : Answer :=
  execute (args (tool_call request file w))
          (<[upload_path file w := stream file]> (fs w)).

(** A lower-case hexadecimal digit. *)
Definition is_hex (c : N) : bool := in_range 48 57 c || in_range 97 102 c.

(** The events a request added to the log. *)
Definition events_since (w w' : World) : list Event :=
  drop (length (log w)) (log w').

(** ** A sample deployment

    Concrete tables, tools and requests on which the definitions above
    evaluate. *)

(** A character database that knows no alphanumerics or whitespace beyond
    ASCII and lowers nothing. *)
Definition ascii_only : Unicode :=
  {| uc_isalnum := λ _, false; uc_isspace := λ _, false; uc_lower := λ s, s |}.

Definition sample_base : Path := [str "/"; str "srv"; str "app"].

(** The tool's answer as a function of its argument vector and the files
    it finds. *)
Definition tool_missing : list pystr → gmap Path (list N) → Answer :=
  λ _ _, NoSuchFile.

Definition tool_locked : list pystr → gmap Path (list N) → Answer :=
  λ _ _, NotExecutable.

Definition tool_hangs : list pystr → gmap Path (list N) → Answer :=
  λ _ files0, Started {| child := 7001; runtime := None; returncode := 0;
                         stdout := []; stderr := []; files := files0;
                         started := [Process 7002 [Process 7003 []]] |}.

Definition tool_fails : list pystr → gmap Path (list N) → Answer :=
  λ _ files0, Started {| child := 7001; runtime := Some 2; returncode := 1;
                         stdout := str "usage"; stderr := str " bad image ";
                         files := files0; started := [] |}.

Definition tool_silent : list pystr → gmap Path (list N) → Answer :=
  λ _ files0, Started {| child := 7001; runtime := Some 2; returncode := 0;
                         stdout := []; stderr := []; files := files0;
                         started := [] |}.

(** A tool that ends at once and writes bytes that are not text. *)
Definition tool_garbles : list pystr → gmap Path (list N) → Answer :=
  λ _ files0, Garbled {| child := 7001; runtime := Some 2; returncode := 1;
                         stdout := []; stderr := []; files := files0;
                         started := [] |}.

(** A well-behaved tool: writes [<filename>.ttf] into the output
    directory and exits with status zero. *)
Definition tool_works : list pystr → gmap Path (list N) → Answer :=
  λ argv files0,
    let name := nth 8 argv [] in
    Started {| child := 7001; runtime := Some 2; returncode := 0;
               stdout := []; stderr := [];
               files := <[(sample_base ++ [str "outputs"; name ++ str ".ttf"]) := [0; 1; 0; 0]]> files0;
               started := [] |}.

Definition deploy (tool : list pystr → gmap Path (list N) → Answer)
  : Deployment :=
  {| BASE_DIR := sample_base; urandom16 := λ n, 1000003 * (n + 1); execute := tool |}.

Definition empty_world : World :=
  {| fs := ∅; flashes := []; procs := []; log := []; draws := 0 |}.

Definition sample_upload : FileStorage :=
  {| file_filename := str "scan.JPG"; stream := [255; 216; 255] |}.

Definition sample_request : Request :=
  {| method := POST;
     files_ := [(str "pngfile", sample_upload)];
     form := [(str "family", str "Sans"); (str "style", str "Regular");
              (str "filename", str "myfont")] |}.

(** A submission without a file part. *)
Definition bare_request : Request :=
  {| method := POST; files_ := []; form := [] |}.

(** The world with one artifact stored under the key ["myfont"]. *)
Definition world_with_font : World :=
  set_fs (insert (sample_base ++ [str "outputs"; str "myfont.ttf"]) [0; 1; 0; 0])
         empty_world.

(** * Results *)

(** ** The sanitizer *)

Section Strings.
Context `{Unicode}.

Lemma lstrip_sublist (s : pystr) : lstrip s `sublist_of` s.
Proof.
  induction s as [|c t IH]; simpl; [constructor|].
  destruct (isspace c); [by apply sublist_cons | reflexivity].
Qed.

Lemma rstrip_sublist (s : pystr) : rstrip s `sublist_of` s.
Proof.
  induction s as [|c t IH]; simpl; [constructor|].
  destruct (rstrip t) as [|d r] eqn:E.
  - destruct (isspace c).
    + apply sublist_nil_l.
    + apply sublist_skip, sublist_nil_l.
  - by apply sublist_skip.
Qed.

Lemma filter_sublist {A} (f : A → bool) (l : list A) :
  List.filter f l `sublist_of` l.
Proof.
  induction l as [|x l IH]; simpl; [constructor|].
  destruct (f x); [by apply sublist_skip | by apply sublist_cons].
Qed.

Lemma filter_all {A} (f : A → bool) (l : list A) :
  Forall (λ x, f x = true) (List.filter f l).
Proof.
  induction l as [|x l IH]; simpl; [constructor|].
  destruct (f x) eqn:E; [by constructor | done].
Qed.

Lemma filter_id {A} (f : A → bool) (l : list A) :
  Forall (λ x, f x = true) l → List.filter f l = l.
Proof.
  induction 1 as [|x l Hx _ IH]; simpl; [done|].
  by rewrite Hx, IH.
Qed.

Lemma sublist_all {A} (P : A → Prop) (k l : list A) :
  k `sublist_of` l → Forall P l → Forall P k.
Proof.
  induction 1; intros HP; [done| |].
  - inversion HP; subst. constructor; auto.
  - inversion HP; subst. auto.
Qed.

(** What [lstrip] returns does not start with whitespace. *)
Lemma lstrip_head (s : pystr) (c : N) :
  head (lstrip s) = Some c → isspace c = false.
Proof.
  induction s as [|d t IH]; simpl; [done|].
  destruct (isspace d) eqn:E; [done|].
  simpl. by intros [= <-].
Qed.

Lemma lstrip_fixed (s : pystr) :
  (∀ c, head s = Some c → isspace c = false) → lstrip s = s.
Proof.
  destruct s as [|d t]; simpl; [done|].
  intros Hd. by rewrite (Hd d eq_refl).
Qed.

(** [rstrip] keeps the first character unless it removes everything. *)
Lemma rstrip_head (s : pystr) (c : N) :
  head (rstrip s) = Some c → head s = Some c.
Proof.
  destruct s as [|d t]; simpl; [done|].
  destruct (rstrip t); [destruct (isspace d)|]; simpl; congruence.
Qed.

Lemma rstrip_last (s : pystr) (c : N) :
  last (rstrip s) = Some c → isspace c = false.
Proof.
  induction s as [|d t IH]; simpl; [done|].
  destruct (rstrip t) as [|e r] eqn:E.
  - destruct (isspace d) eqn:Ed; simpl; [done|]. by intros [= <-].
  - rewrite last_cons_cons. exact IH.
Qed.

Lemma rstrip_idem (s : pystr) : rstrip (rstrip s) = rstrip s.
Proof.
  induction s as [|d t IH]; simpl; [done|].
  destruct (rstrip t) as [|e r] eqn:E.
  - destruct (isspace d) eqn:Ed; simpl; [done|]. by rewrite Ed.
  - simpl. simpl in IH. destruct (rstrip r) as [|e' r'] eqn:E'.
    + destruct (isspace e); [done|]. by rewrite IH.
    + by rewrite IH.
Qed.

Lemma strip_idem (s : pystr) : strip (strip s) = strip s.
Proof.
  unfold strip.
  rewrite (lstrip_fixed (rstrip (lstrip s))).
  - apply rstrip_idem.
  - intros c Hc. apply rstrip_head in Hc. by apply lstrip_head in Hc.
Qed.

Lemma strip_sublist (s : pystr) : strip s `sublist_of` s.
Proof.
  unfold strip. etrans; [apply rstrip_sublist | apply lstrip_sublist].
Qed.

Lemma sanitize_text_sublist (value : pystr) :
  sanitize_text value `sublist_of` value.
Proof.
  unfold sanitize_text. etrans; [apply strip_sublist | apply filter_sublist].
Qed.

Lemma sanitize_text_safe (value : pystr) :
  Forall (λ c, safe_char c = true) (sanitize_text value).
Proof.
  unfold sanitize_text.
  eapply sublist_all; [apply strip_sublist | apply filter_all].
Qed.

End Strings.

Section Sanitizer.
Context `{Unicode}.

Lemma safe_char_allowed (c : N) : safe_char c = true → allowed_class c.
Proof.
  unfold safe_char, allowed_class, in_chars. simpl.
  rewrite !orb_true_iff, !N.eqb_eq. intuition discriminate.
Qed.

Lemma safe_char_ascii (c : N) :
  safe_char c = true → is_ascii c = false ∨ ascii_safe c = true.
Proof.
  unfold safe_char, ascii_safe, isalnum.
  destruct (is_ascii c); [by right | by left].
Qed.

(** A character the filter rejects does not occur in the result. *)
Lemma sanitize_text_excludes (value : pystr) (c : N) :
  safe_char c = false → c ∉ sanitize_text value.
Proof.
  intros Hc Hin.
  pose proof (sanitize_text_safe value) as Hall.
  rewrite Forall_forall in Hall. apply Hall in Hin. congruence.
Qed.

Lemma sanitize_text_stripped (value : pystr) : stripped (sanitize_text value).
Proof.
  unfold stripped, sanitize_text, strip. split.
  - destruct (head _) as [c|] eqn:E; [|done].
    apply rstrip_head in E. by apply lstrip_head in E.
  - destruct (last _) as [c|] eqn:E; [|done].
    by apply rstrip_last in E.
Qed.

End Sanitizer.

(** ** Paths *)

Lemma root_of_plain (s : pystr) : SLASH ∉ s → root_of s = [].
Proof.
  destruct s as [|c t]; [done|].
  intros Hs. assert (c ≠ 47) as Hc by (intros ->; apply Hs; left).
  simpl. destruct c as [|p]; [done|].
  do 6 (destruct p as [p|p|]; try done).
Qed.

Lemma split_plain (sep : N) (s : pystr) : sep ∉ s → split sep s = [s].
Proof.
  induction s as [|c t IH]; [done|].
  intros Hs. simpl.
  destruct (N.eqb_spec c sep) as [->|Hne]; [exfalso; apply Hs; left|].
  rewrite IH; [done|]. intros Hin. apply Hs. by right.
Qed.

(** Joining a plain name adds exactly that component. *)
Lemma joinpath_plain (d : Path) (s : pystr) :
  SLASH ∉ s → s ≠ [] → s ≠ [DOT] → d // s = d ++ [s].
Proof.
  intros Hs Hne Hdot. unfold joinpath, name_parts, pystr_eqb.
  rewrite root_of_plain, split_plain by done. simpl.
  rewrite !bool_decide_eq_false_2 by done. done.
Qed.

Lemma joinpath_direct_child (d : Path) (s : pystr) :
  SLASH ∉ s → s ≠ [] → s ≠ [DOT] → s ≠ [DOT; DOT] →
  direct_child d (d // s).
Proof.
  intros. exists s. by rewrite joinpath_plain.
Qed.

Lemma direct_child_parent (dir p : Path) : direct_child dir p → parent p = dir.
Proof.
  intros (name & -> & _). unfold parent. apply removelast_last.
Qed.

(** The artifact name of a sanitized key is a plain name. *)
Lemma ttf_name_plain `{Unicode} (value : pystr) :
  let name := sanitize_text value ++ str ".ttf" in
  (SLASH ∉ name) ∧ name ≠ [] ∧ name ≠ [DOT] ∧ name ≠ [DOT; DOT].
Proof.
  simpl. split_and!.
  - rewrite elem_of_app. intros [Hin|Hin].
    + by apply sanitize_text_excludes in Hin.
    + revert Hin. apply (bool_decide_unpack _). by vm_compute.
  - by destruct (sanitize_text value).
  - intros E. apply (f_equal length) in E. rewrite length_app in E.
    simpl in E. lia.
  - intros E. apply (f_equal length) in E. rewrite length_app in E.
    simpl in E. lia.
Qed.

(** [C1] Whatever the input, [sanitize_text] returns a subsequence of it
    made only of letters and digits ([str.isalnum]), spaces, hyphens and
    underscores; in ASCII that leaves exactly [0-9A-Za-z _-], so no ['/'],
    ['.'] or [';'] and no other shell or path metacharacter; the result has
    no whitespace at either end; and hence [OUTPUT_DIR / "<result>.ttf"]
    is an entry directly inside the output directory. *)
Theorem sanitize_text_contract `{Unicode} `{Deployment} (value : pystr) :
  sanitize_text value `sublist_of` value
  ∧ Forall allowed_class (sanitize_text value)
  ∧ ascii_part_safe (sanitize_text value)
  ∧ (SLASH ∉ sanitize_text value)
  ∧ (DOT ∉ sanitize_text value)
  ∧ (SEMICOLON ∉ sanitize_text value)
  ∧ stripped (sanitize_text value)
  ∧ direct_child OUTPUT_DIR (OUTPUT_DIR // (sanitize_text value ++ str ".ttf")).
Proof.
  split_and!.
  - apply sanitize_text_sublist.
  - eapply Forall_impl; [apply sanitize_text_safe|]. apply safe_char_allowed.
  - eapply Forall_impl; [apply sanitize_text_safe|]. apply safe_char_ascii.
  - by apply sanitize_text_excludes.
  - by apply sanitize_text_excludes.
  - by apply sanitize_text_excludes.
  - apply sanitize_text_stripped.
  - destruct (ttf_name_plain value) as (? & ? & ? & ?).
    by apply joinpath_direct_child.
Qed.

(** [C8] Sanitizing twice is the same as sanitizing once. *)
Theorem sanitize_text_idempotent `{Unicode} (x : pystr) :
  sanitize_text (sanitize_text x) = sanitize_text x.
Proof.
  unfold sanitize_text at 1.
  rewrite filter_id by apply sanitize_text_safe.
  unfold sanitize_text. apply strip_idem.
Qed.

(** ** The two retrieval endpoints *)

#[local] Arguments str : simpl never.
#[local] Arguments joinpath : simpl never.
#[local] Arguments hex32 : simpl never.

Section Retrieval.
Context `{Unicode} `{Deployment}.

Local Abbreviation ttf key := (OUTPUT_DIR // (key ++ str ".ttf")).
Local Abbreviation bad key :=
  (negb (truthy (sanitize_text key)) || negb (pystr_eqb (sanitize_text key) key)).
Local Abbreviation status code :=
  {| body := Status code; on_close := []; direct_passthrough := false |}.

Lemma key_check_passes (key : pystr) :
  bad key = false ↔ sanitize_text key = key ∧ key ≠ [].
Proof.
  unfold pystr_eqb. rewrite orb_false_iff, !negb_false_iff, bool_decide_eq_true.
  split.
  - intros [Ht E]. split; [done|]. rewrite E in Ht. by destruct key.
  - intros [E Hne]. split; [|done]. rewrite E. by destruct key.
Qed.

Lemma key_check_fails (key : pystr) :
  key ≠ [] → bad key = true ↔ sanitize_text key ≠ key.
Proof.
  intros Hne. rewrite <- not_false_iff_true, key_check_passes. tauto.
Qed.

Lemma download_font_dispatch (key : pystr) (w : World) :
  dispatch (download_font key) w =
  (if bad key then status 400
   else if bool_decide (is_Some (fs w !! ttf key))
        then {| body := Rendered (str "download.html") (Some key);
                on_close := []; direct_passthrough := false |}
        else status 404,
   w).
Proof.
  unfold dispatch, download_font, path_exists, render_template, respond,
    when, abort, raise, gets, mbind, M_bind, mret, M_ret.
  destruct (bad key); [done|].
  by destruct (bool_decide (is_Some (fs w !! ttf key))).
Qed.

Lemma safe_join_sanitized (dir : Path) (key : pystr) :
  sanitize_text key = key →
  safe_join dir (key ++ str ".ttf") = Some (dir // (key ++ str ".ttf")).
Proof.
  intros E. destruct (ttf_name_plain key) as (Hs & _ & _ & Hdd).
  rewrite E in Hs, Hdd. unfold safe_join.
  rewrite root_of_plain, split_plain by done.
  unfold in_strs, pystr_eqb. simpl.
  rewrite bool_decide_eq_false_2; [done|].
  intros E'. by apply Hdd.
Qed.

Lemma serve_font_file_dispatch (key : pystr) (w : World) :
  dispatch (serve_font_file key) w =
  (if bad key then status 400
   else match fs w !! ttf key with
        | Some data =>
            {| body := Attachment (ttf key) (key ++ str ".ttf") data;
               on_close := [unlink (ttf key) true];
               direct_passthrough := true |}
        | None => status 404
        end,
   w).
Proof.
  destruct (bad key) eqn:Hbad.
  - unfold dispatch, serve_font_file, when, abort, raise, mbind, M_bind.
    by rewrite Hbad.
  - apply key_check_passes in Hbad as Hkey. destruct Hkey as [E _].
    unfold dispatch, serve_font_file, send_from_directory.
    rewrite safe_join_sanitized by done.
    unfold path_exists, respond, call_on_close, when, abort, raise, gets,
      mbind, M_bind, mret, M_ret.
    rewrite Hbad.
    destruct (fs w !! ttf key) as [data|] eqn:Hfs; simpl; [|done].
    by rewrite Hfs.
Qed.

Lemma unlink_present (p : Path) (w : World) :
  is_Some (fs w !! p) →
  unlink p true w = (inr tt, emit (Unlinked p) (set_fs (delete p) w)).
Proof. intros [d Hd]. unfold unlink. by rewrite Hd. Qed.

Lemma unlink_absent (p : Path) (w : World) :
  fs w !! p = None → unlink p true w = (inr tt, w).
Proof. intros Hd. unfold unlink. by rewrite Hd. Qed.

Lemma unlink_gone (p : Path) (missing_ok : bool) (w : World) :
  fs (snd (unlink p missing_ok w)) !! p = None.
Proof.
  unfold unlink. destruct (fs w !! p) eqn:E; simpl.
  - apply lookup_delete_eq.
  - by destruct missing_ok.
Qed.

(** [C9] Serving the download page leaves the world as it found it, for
    every key and whatever the response is: no file appears, changes or
    disappears, and nothing is registered to run when the response
    closes. *)
Theorem download_font_read_only (key : pystr) (t : Transfer) (w : World) :
  snd (serve (download_font key) t w) = w
  ∧ on_close (fst (serve (download_font key) t w)) = [].
Proof.
  unfold serve. rewrite download_font_dispatch.
  destruct (bad key); [by destruct t|].
  by destruct (bool_decide (is_Some (fs w !! ttf key))), t.
Qed.

(** [C6] For a non-empty key, each retrieval endpoint answers 400 exactly
    when sanitizing the key changes it; when the key passes that check and
    no artifact is stored under it, both answer 404. *)
Theorem retrieval_key_validation (key : pystr) (t : Transfer) (w : World) :
  key ≠ [] →
  (status_of (fst (serve (download_font key) t w)) = 400
     ↔ sanitize_text key ≠ key)
  ∧ (status_of (fst (serve (serve_font_file key) t w)) = 400
     ↔ sanitize_text key ≠ key)
  ∧ (sanitize_text key = key → fs w !! ttf key = None →
     status_of (fst (serve (download_font key) t w)) = 404
     ∧ status_of (fst (serve (serve_font_file key) t w)) = 404).
Proof.
  intros Hne. unfold serve.
  rewrite download_font_dispatch, serve_font_file_dispatch.
  rewrite <- (key_check_fails key Hne).
  destruct (bad key) eqn:Hbad.
  - split_and!; [by destruct t..|].
    intros E. apply key_check_fails in Hbad; done.
  - split_and!.
    + destruct (bool_decide (is_Some (fs w !! ttf key))), t; by split.
    + destruct (fs w !! ttf key), t; by split.
    + intros _ Hfs. rewrite Hfs.
      rewrite bool_decide_eq_false_2 by (by intros [? ?]).
      by destruct t.
Qed.

(** [C2] The font is not handed out only once.  When
    [GET /font/<key>/file] succeeds, the function that would unlink the
    font is registered on the response, but the response passes the file
    through and is never closed, so the function does not run: whether
    the transfer was completed or the client went away, the world is
    afterwards as it was before, the font is still stored, and the next
    request for the same key is answered 200 again, on both endpoints,
    with the same bytes. *)
Theorem artifact_survives_download (key : pystr) (t : Transfer) (w : World) :
  status_of (fst (serve (serve_font_file key) t w)) = 200 →
  let r := fst (serve (serve_font_file key) t w) in
  let w' := snd (serve (serve_font_file key) t w) in
  on_close r = [unlink (ttf key) true]
  ∧ w' = w
  ∧ is_Some (fs w' !! ttf key)
  ∧ ∀ t', status_of (fst (serve (serve_font_file key) t' w')) = 200
          ∧ body (fst (serve (serve_font_file key) t' w')) = body r
          ∧ status_of (fst (serve (download_font key) t' w')) = 200.
Proof.
  unfold serve. rewrite serve_font_file_dispatch.
  destruct (bad key) eqn:Hbad; [by destruct t|].
  destruct (fs w !! ttf key) as [data|] eqn:Hfs; [|by destruct t].
  intros _.
  assert (Hagain : ∀ t',
    status_of (fst (let (r, w') := dispatch (serve_font_file key) w in
                    match t' with
                    | Completed | ClientAborted =>
                        (r, if direct_passthrough r then w' else close r w')
                    end)) = 200
    ∧ body (fst (let (r, w') := dispatch (serve_font_file key) w in
                 match t' with
                 | Completed | ClientAborted =>
                     (r, if direct_passthrough r then w' else close r w')
                 end)) = Attachment (ttf key) (key ++ str ".ttf") data
    ∧ status_of (fst (let (r, w') := dispatch (download_font key) w in
                      match t' with
                      | Completed | ClientAborted =>
                          (r, if direct_passthrough r then w' else close r w')
                      end)) = 200).
  { intros t'. rewrite serve_font_file_dispatch, download_font_dispatch.
    rewrite Hbad, Hfs. rewrite bool_decide_eq_true_2 by eauto.
    by destruct t'. }
  destruct t; cbn [fst snd direct_passthrough on_close body];
    (split_and!; [done|done|eauto|exact Hagain]).
Qed.

End Retrieval.

(** The stored font is still there after it has been downloaded. *)
Lemma artifact_survives_download_witness :
  let _ : Unicode := ascii_only in
  let _ : Deployment := deploy tool_works in
  status_of (fst (serve (serve_font_file (str "myfont")) Completed
                    world_with_font)) = 200
  ∧ snd (serve (serve_font_file (str "myfont")) Completed world_with_font)
    = world_with_font.
Proof.
  cbv zeta.
  assert (Hok : status_of (fst (serve
            (@serve_font_file ascii_only (deploy tool_works) (str "myfont"))
            Completed world_with_font)) = 200) by (by vm_compute).
  split; [exact Hok|].
  destruct (@artifact_survives_download ascii_only (deploy tool_works)
              (str "myfont") Completed world_with_font Hok)
    as (_ & Hw & _).
  exact Hw.
Defined.

(** A key with a dot in it is refused. *)
Lemma retrieval_key_validation_witness :
  let _ : Unicode := ascii_only in
  let _ : Deployment := deploy tool_works in
  str "my.font" ≠ []
  ∧ status_of (fst (serve (download_font (str "my.font")) Completed
                      world_with_font)) = 400.
Proof.
  simpl.
  assert (Hne : str "my.font" ≠ []) by discriminate.
  split; [exact Hne|].
  apply (@retrieval_key_validation ascii_only (deploy tool_works)
           (str "my.font") Completed world_with_font Hne).
  by vm_compute.
Defined.

(** ** File names and text inputs *)

Section Names.
Context `{Unicode}.

Lemma in_chars_spec (c : N) (cs : list N) : in_chars c cs = true ↔ c ∈ cs.
Proof.
  unfold in_chars. induction cs as [|d cs IH]; simpl.
  - split; [done | by intros ?%elem_of_nil].
  - rewrite orb_true_iff, IH, N.eqb_eq, elem_of_cons. done.
Qed.

Lemma in_strs_spec (s : pystr) (l : list pystr) : in_strs s l = true ↔ s ∈ l.
Proof.
  unfold in_strs, pystr_eqb. induction l as [|d l IH]; simpl.
  - split; [done | by intros ?%elem_of_nil].
  - rewrite orb_true_iff, IH, bool_decide_eq_true, elem_of_cons. done.
Qed.

Lemma rsplit_last_none (sep : N) (s : pystr) :
  rsplit_last sep s = None ↔ sep ∉ s.
Proof.
  induction s as [|c t IH]; simpl.
  - split; [intros _; apply not_elem_of_nil | done].
  - rewrite not_elem_of_cons, <- IH.
    destruct (rsplit_last sep t) as [[a b]|].
    + split; [done | by intros [_ ?]].
    + destruct (N.eqb_spec c sep) as [->|Hne].
      * split; [done | by intros [? _]].
      * split; [by intros _; split; [congruence|] | done].
Qed.

Lemma rsplit_last_spec (sep : N) (s a b : pystr) :
  rsplit_last sep s = Some (a, b) ↔ s = a ++ sep :: b ∧ sep ∉ b.
Proof.
  revert a. induction s as [|c t IH]; intros a; simpl.
  - split; [done | intros [E _]; by destruct a].
  - destruct (rsplit_last sep t) as [[a' b']|] eqn:Ht.
    + split.
      * intros [= <- <-]. destruct (proj1 (IH a') eq_refl) as [-> Hb]. done.
      * intros [E Hb]. destruct a as [|x a]; simplify_eq/=.
        -- apply rsplit_last_none in Hb. congruence.
        -- assert (Some (a', b') = Some (a, b)) as [= -> ->]
             by (by apply IH).
           done.
    + apply rsplit_last_none in Ht.
      destruct (N.eqb_spec c sep) as [->|Hne].
      * split.
        -- by intros [= <- <-].
        -- intros [E Hb]. destruct a as [|x a]; simplify_eq/=; [done|].
           exfalso. apply Ht. rewrite elem_of_app, elem_of_cons. auto.
      * split; [done|]. intros [E Hb].
        destruct a as [|x a]; simplify_eq/=.
        exfalso. apply Ht. rewrite elem_of_app, elem_of_cons. auto.
Qed.

Lemma allowed_file_suffix (name : pystr) :
  allowed_file name = true →
  ∃ base suffix, rsplit_last DOT name = Some (base, suffix)
                 ∧ lower suffix ∈ ALLOWED_EXTENSIONS.
Proof.
  unfold allowed_file, rsplit1. rewrite andb_true_iff. intros [_ Hs].
  destruct (rsplit_last DOT name) as [[a b]|]; [|done].
  exists a, b. split; [done|]. by apply in_strs_spec.
Qed.

(** [X1] [allowed_file] accepts a name exactly when it has a dot and what
    follows its last dot, lowered, is one of the three extensions;
    whatever stands before that dot plays no part. *)
Theorem allowed_file_iff (name : pystr) :
  allowed_file name = true ↔
  ∃ base suffix, name = base ++ DOT :: suffix ∧ (DOT ∉ suffix)
                 ∧ lower suffix ∈ ALLOWED_EXTENSIONS.
Proof.
  split.
  - intros (a & b & Hr & Hin)%allowed_file_suffix.
    apply rsplit_last_spec in Hr as [-> Hb]. eauto.
  - intros (a & b & -> & Hb & Hin).
    unfold allowed_file, rsplit1.
    rewrite (proj2 (rsplit_last_spec DOT _ a b)) by done.
    apply andb_true_iff. split.
    + apply in_chars_spec. rewrite elem_of_app, elem_of_cons. auto.
    + by apply in_strs_spec.
Qed.

Lemma ascii_lower_dot (c : N) : ascii_lower c = DOT ↔ c = DOT.
Proof.
  unfold ascii_lower, in_range, DOT.
  destruct (65 <=? c) eqn:E1, (c <=? 90) eqn:E2; simpl;
    rewrite ?N.leb_le, ?N.leb_gt in *; lia.
Qed.

Lemma ascii_lower_idem (c : N) : ascii_lower (ascii_lower c) = ascii_lower c.
Proof.
  unfold ascii_lower. destruct (in_range 65 90 c) eqn:E; [|by rewrite E].
  unfold in_range in *.
  apply andb_true_iff in E as [E1%N.leb_le E2%N.leb_le].
  destruct (65 <=? c + 32) eqn:E3, (c + 32 <=? 90) eqn:E4; simpl;
    rewrite ?N.leb_le, ?N.leb_gt in *; lia.
Qed.

Lemma ascii_lower_ascii (c : N) : is_ascii c = true → is_ascii (ascii_lower c) = true.
Proof.
  unfold is_ascii, ascii_lower, in_range. rewrite !N.ltb_lt.
  destruct (65 <=? c) eqn:E1, (c <=? 90) eqn:E2; simpl;
    rewrite ?N.leb_le, ?N.leb_gt in *; lia.
Qed.

Lemma forallb_ascii_lower (s : pystr) :
  forallb is_ascii s = true → forallb is_ascii (map ascii_lower s) = true.
Proof.
  induction s as [|c t IH]; simpl; [done|].
  rewrite !andb_true_iff. intros [Hc Ht]. auto using ascii_lower_ascii.
Qed.

Lemma lower_ascii (s : pystr) :
  forallb is_ascii s = true → lower s = map ascii_lower s.
Proof. intros E. unfold lower. by rewrite E. Qed.

Lemma lower_idem_ascii (s : pystr) :
  forallb is_ascii s = true → lower (lower s) = lower s.
Proof.
  intros E. rewrite (lower_ascii s E).
  rewrite lower_ascii by by apply forallb_ascii_lower.
  rewrite map_map. apply map_ext. intros c. apply ascii_lower_idem.
Qed.

Lemma rsplit_last_lower (s : pystr) :
  rsplit_last DOT (map ascii_lower s) =
  match rsplit_last DOT s with
  | Some (a, b) => Some (map ascii_lower a, map ascii_lower b)
  | None => None
  end.
Proof.
  induction s as [|c t IH]; simpl; [done|].
  rewrite IH. destruct (rsplit_last DOT t) as [[a b]|]; [done|].
  destruct (N.eqb_spec c DOT) as [->|Hne].
  - by rewrite (proj2 (ascii_lower_dot DOT) eq_refl), N.eqb_refl.
  - destruct (N.eqb_spec (ascii_lower c) DOT) as [E|]; [|done].
    by apply (proj1 (ascii_lower_dot c)) in E.
Qed.

Lemma forallb_ascii_app (a b : pystr) :
  forallb is_ascii (a ++ b) = true →
  forallb is_ascii a = true ∧ forallb is_ascii b = true.
Proof. rewrite forallb_app, andb_true_iff. done. Qed.

(** [X2] On a name made of ASCII characters the check does not see the
    case of letters: the name and its lower-case form are accepted or
    refused together. *)
Theorem allowed_file_ignores_case (name : pystr) :
  forallb is_ascii name = true →
  allowed_file (lower name) = allowed_file name.
Proof.
  intros Hascii. rewrite (lower_ascii name Hascii).
  unfold allowed_file, rsplit1. rewrite rsplit_last_lower.
  destruct (rsplit_last DOT name) as [[a b]|] eqn:Hr.
  - apply rsplit_last_spec in Hr as [-> Hb].
    apply forallb_ascii_app in Hascii as [_ Hb'].
    change (forallb is_ascii b = true) in Hb'.
    cbn [lookup list_lookup].
    rewrite <- (lower_ascii b Hb'), (lower_idem_ascii b Hb').
    f_equal. apply eq_true_iff_eq. rewrite !in_chars_spec.
    rewrite map_app, !elem_of_app. simpl. rewrite !elem_of_cons. split; auto.
  - simpl. by rewrite !andb_false_r.
Qed.

Lemma stripped_strip (s : pystr) : stripped (strip s).
Proof.
  unfold stripped, strip. split.
  - destruct (head (rstrip (lstrip s))) as [c|] eqn:E; [|done].
    by eapply lstrip_head, rstrip_head.
  - destruct (last (rstrip (lstrip s))) as [c|] eqn:E; [|done].
    by eapply rstrip_last.
Qed.

Lemma rstrip_fixed (s : pystr) :
  (∀ c, last s = Some c → isspace c = false) → rstrip s = s.
Proof.
  induction s as [|c t IH]; simpl; [done|]. intros Hl.
  destruct t as [|d t].
  - simpl. by rewrite (Hl c eq_refl).
  - rewrite IH; [done|]. intros x Hx. apply Hl. by rewrite last_cons_cons.
Qed.

Lemma strip_fixed (s : pystr) : stripped s → strip s = s.
Proof.
  intros [Hh Hl]. unfold strip.
  rewrite lstrip_fixed by (intros c E; by rewrite E in Hh).
  apply rstrip_fixed. intros c E. by rewrite E in Hl.
Qed.

(** [X3] The strings [sanitize_text] leaves unchanged are exactly those
    made of letters, digits, spaces, hyphens and underscores with no
    whitespace at either end; these are the keys the retrieval endpoints
    let through. *)
Theorem sanitize_text_fixed_iff (x : pystr) :
  sanitize_text x = x ↔ Forall (λ c, safe_char c = true) x ∧ stripped x.
Proof.
  split.
  - intros E. split.
    + rewrite <- E. apply sanitize_text_safe.
    + rewrite <- E. apply stripped_strip.
  - intros [Hs Ht]. unfold sanitize_text.
    rewrite filter_id by done. by apply strip_fixed.
Qed.

Lemma rstrip_nil (s : pystr) :
  rstrip s = [] ↔ Forall (λ c, isspace c = true) s.
Proof.
  induction s as [|c t IH]; simpl; [by split|].
  rewrite Forall_cons, <- IH.
  destruct (rstrip t) as [|d r]; [|by split; [|intros [_ ?]]].
  destruct (isspace c); by split; [|intros [? _]].
Qed.

Lemma lstrip_spaces (s : pystr) :
  Forall (λ c, isspace c = true) (lstrip s) ↔ Forall (λ c, isspace c = true) s.
Proof.
  induction s as [|c t IH]; simpl; [done|].
  destruct (isspace c) eqn:E; [|done].
  rewrite IH, Forall_cons. by split; [|intros [_ ?]].
Qed.

Lemma filter_spaces (f : N → bool) (s : pystr) :
  Forall (λ c, isspace c = true) (List.filter f s)
  ↔ Forall (λ c, f c = true → isspace c = true) s.
Proof.
  induction s as [|c t IH]; simpl; [by split|].
  rewrite Forall_cons, <- IH. destruct (f c) eqn:E.
  - rewrite Forall_cons. split; intros [? ?]; auto.
  - split; [by split | by intros [_ ?]].
Qed.

(** [X4] A text input sanitizes to the empty string, and is then refused
    as missing, exactly when every character of it that would be kept is
    whitespace. *)
Theorem sanitize_text_empty_iff (x : pystr) :
  sanitize_text x = [] ↔
  Forall (λ c, safe_char c = true → isspace c = true) x.
Proof.
  unfold sanitize_text, strip.
  by rewrite rstrip_nil, lstrip_spaces, filter_spaces.
Qed.

End Names.

(** The check on ["a.tar.PNG"] agrees with the one on ["a.tar.png"]. *)
Lemma allowed_file_ignores_case_witness :
  forallb is_ascii (str "a.tar.PNG") = true
  ∧ @allowed_file ascii_only (@lower ascii_only (str "a.tar.PNG"))
    = @allowed_file ascii_only (str "a.tar.PNG").
Proof.
  assert (Ha : forallb is_ascii (str "a.tar.PNG") = true) by (by vm_compute).
  split; [exact Ha|].
  exact (@allowed_file_ignores_case ascii_only (str "a.tar.PNG") Ha).
Defined.

(** ** The job *)

#[local] Arguments uuid4_int : simpl never.
#[local] Arguments path_str : simpl never.
#[local] Arguments sanitize_text : simpl never.
#[local] Arguments strip : simpl never.
#[local] Arguments lower : simpl never.
#[local] Arguments py_or : simpl never.
#[local] Arguments reap : simpl never.

Ltac world_cbn :=
  cbn [fs flashes procs log draws emit set_fs set_flashes set_procs set_draws
       args timeout text run_call cp_returncode cp_stdout cp_stderr body
       on_close direct_passthrough negb andb lookup list_lookup snd fst].

Section Job.
Context `{Unicode} `{Deployment}.

Local Abbreviation gen_page :=
  {| body := Redirect url_generate; on_close := [];
     direct_passthrough := false |}.

Lemma UPLOAD_DIR_parts : UPLOAD_DIR = BASE_DIR ++ [str "uploads"].
Proof.
  apply joinpath_plain; [|done..].
  apply (bool_decide_unpack _). by vm_compute.
Qed.

Lemma OUTPUT_DIR_parts : OUTPUT_DIR = BASE_DIR ++ [str "outputs"].
Proof.
  apply joinpath_plain; [|done..].
  apply (bool_decide_unpack _). by vm_compute.
Qed.

Lemma hex_digit_hex (d : N) : (d < 16)%N → is_hex (hex_digit d) = true.
Proof.
  intros Hd. unfold is_hex, hex_digit, in_range.
  destruct (d <? 10) eqn:E; rewrite ?N.ltb_lt, ?N.ltb_ge in E;
    rewrite orb_true_iff, !andb_true_iff, !N.leb_le; lia.
Qed.

Lemma hex_digits_length (k : nat) (n : N) : length (hex_digits k n) = k.
Proof.
  revert n. induction k as [|k IH]; intros n; simpl; [done|].
  rewrite length_app, IH. simpl. lia.
Qed.

Lemma hex_digits_hex (k : nat) (n : N) :
  Forall (λ c, is_hex c = true) (hex_digits k n).
Proof.
  revert n. induction k as [|k IH]; intros n; simpl; [done|].
  apply Forall_app. split; [apply IH|].
  apply Forall_singleton, hex_digit_hex. by apply N.mod_lt.
Qed.

Lemma job_id_length (w : World) : length (job_id_of w) = 32%nat.
Proof. apply hex_digits_length. Qed.

Lemma job_id_hex (w : World) : Forall (λ c, is_hex c = true) (job_id_of w).
Proof. apply hex_digits_hex. Qed.

Lemma allowed_ext_plain (ext : pystr) :
  ext ∈ ALLOWED_EXTENSIONS → SLASH ∉ ext.
Proof.
  unfold ALLOWED_EXTENSIONS. rewrite !elem_of_cons, elem_of_nil.
  intros [->|[->|[->|[]]]]; apply (bool_decide_unpack _); by vm_compute.
Qed.

Lemma upload_name_plain (w : World) (ext : pystr) :
  ext ∈ ALLOWED_EXTENSIONS →
  let name := job_id_of w ++ str "." ++ ext in
  (SLASH ∉ name) ∧ name ≠ [] ∧ name ≠ [DOT] ∧ name ≠ [DOT; DOT].
Proof.
  intros Hext name.
  assert (Hlen : (32 < length name)%nat).
  { unfold name. rewrite !length_app, job_id_length. simpl. lia. }
  split_and!.
  - unfold name. rewrite !elem_of_app. intros [Hin|[Hin|Hin]].
    + pose proof (job_id_hex w) as Hhex.
      rewrite Forall_forall in Hhex. by apply Hhex in Hin.
    + revert Hin. apply (bool_decide_unpack _). by vm_compute.
    + by apply allowed_ext_plain in Hin.
  - intros E. rewrite E in Hlen. simpl in Hlen. lia.
  - intros E. rewrite E in Hlen. simpl in Hlen. lia.
  - intros E. rewrite E in Hlen. simpl in Hlen. lia.
Qed.

Lemma stored_ext_allowed (name : pystr) :
  allowed_file name = true → stored_ext name ∈ ALLOWED_EXTENSIONS.
Proof.
  intros (a & b & Hr & Hin)%allowed_file_suffix.
  unfold stored_ext. by rewrite Hr.
Qed.

Lemma upload_path_joined (file : FileStorage) (w : World) :
  allowed_file (file_filename file) = true →
  UPLOAD_DIR // (job_id_of w ++ str "." ++ stored_ext (file_filename file))
  = upload_path file w.
Proof.
  intros Hok%stored_ext_allowed.
  destruct (upload_name_plain w _ Hok) as (? & ? & ? & _).
  by apply joinpath_plain.
Qed.

Lemma upload_path_child (file : FileStorage) (w : World) :
  allowed_file (file_filename file) = true →
  direct_child UPLOAD_DIR (upload_path file w).
Proof.
  intros Hok%stored_ext_allowed.
  destruct (upload_name_plain w _ Hok) as (? & ? & ? & ?).
  unfold upload_path, direct_child. eauto 10.
Qed.

Lemma artifact_path_joined (value : pystr) :
  OUTPUT_DIR // (sanitize_text value ++ str ".ttf")
  = artifact_path (sanitize_text value).
Proof.
  destruct (ttf_name_plain value) as (? & ? & ? & _).
  by apply joinpath_plain.
Qed.

Lemma upload_not_artifact (file : FileStorage) (w : World) (key : pystr) :
  upload_path file w ≠ artifact_path key.
Proof.
  unfold upload_path, artifact_path.
  rewrite UPLOAD_DIR_parts, OUTPUT_DIR_parts, <- !app_assoc.
  intros E%app_inv_head. by injection E.
Qed.

Lemma truthy_spec (s : pystr) : truthy s = true ↔ s ≠ [].
Proof. by destruct s. Qed.

(** What [accepted] says about a request. *)
Lemma accepted_inv (request : Request) (file : FileStorage) :
  accepted request = Some file →
  method request ≠ GET
  ∧ multi_get (str "pngfile") (files_ request) = Some file
  ∧ pystr_eqb (file_filename file) [] = false
  ∧ allowed_file (file_filename file) = true
  ∧ truthy (field request "family") = true
  ∧ truthy (field request "style") = true
  ∧ truthy (field request "filename") = true.
Proof.
  unfold accepted. intros Hacc.
  assert (method request ≠ GET) as Hm by (by destruct (method request)).
  destruct (multi_get (str "pngfile") (files_ request)) as [f|];
    [|by destruct (method request)].
  destruct (negb (pystr_eqb (file_filename f) []) && _ && _ && _ && _) eqn:E;
    [|by destruct (method request)].
  assert (f = file) as -> by (destruct (method request); congruence).
  rewrite !andb_true_iff, negb_true_iff in E.
  destruct E as [[[[? ?] ?] ?] ?]. by split_and!.
Qed.

Lemma dispatch_inr (view : M Response) (w w' : World) (r : Response) :
  view w = (inr r, w') → dispatch view w = (r, w').
Proof. intros E. unfold dispatch. by rewrite E. Qed.

(** The run of [generate] on an accepted request, by the answer of the
    tool. *)
Lemma generate_accepted (request : Request) (file : FileStorage) (w : World) :
  accepted request = Some file →
  generate request w =
    let img := upload_path file w in
    let w1 := emit (Ran (tool_call request file w))
                (emit (Saved img)
                   (set_fs (insert img (stream file)) (set_draws N.succ w))) in
    match tool_answer request file w with
    | NoSuchFile =>
        (inr gen_page,
         set_flashes
           (λ l, l ++ [str "handwrite is not installed. Run: pip install handwrite"])
           (emit (Unlinked img) (set_fs (delete img) w1)))
    | NotExecutable => (inl PermissionError, w1)
    | Started e =>
        let w2 := set_procs (reap (child e))
                    (set_procs (cons (Process (child e) (started e)))
                       (set_fs (λ _, files e) w1)) in
        let w3 := snd (unlink img true w2) in
        if expired 120 (runtime e) then
          (inr gen_page,
           set_flashes
             (λ l, l ++ [str "Font generation timed out. Please try again."]) w3)
        else if negb (returncode e =? 0)%Z then
          (inr gen_page,
           set_flashes
             (λ l, l ++ [str "handwrite failed: " ++
                         py_or (strip (stderr e)) (strip (stdout e))]) w3)
        else if bool_decide
                  (is_Some (fs w3 !! artifact_path (field request "filename")))
        then
          (inr {| body := Redirect (url_download_font (field request "filename"));
                  on_close := []; direct_passthrough := false |}, w3)
        else
          (inr gen_page,
           set_flashes
             (λ l, l ++ [str "handwrite ran but produced no output file."]) w3)
    | Garbled e =>
        let w2 := set_procs (reap (child e))
                    (set_procs (cons (Process (child e) (started e)))
                       (set_fs (λ _, files e) w1)) in
        if expired 120 (runtime e) then
          (inr gen_page,
           set_flashes
             (λ l, l ++ [str "Font generation timed out. Please try again."])
             (snd (unlink img true w2)))
        else (inl UnicodeDecodeError, w2)
    end.
Proof.
  intros (Hm & Hfile & Hname & Hok & Hfam & Hsty & Hfn)%accepted_inv.
  apply allowed_file_suffix in Hok as Hsuf.
  destruct Hsuf as (base & suffix & Hr & _).
  assert (Hext : stored_ext (file_filename file) = lower suffix).
  { unfold stored_ext. by rewrite Hr. }
  unfold tool_answer, tool_call.
  rewrite <- (upload_path_joined file w Hok).
  unfold field in *. rewrite <- artifact_path_joined.
  unfold generate, job_id_of. rewrite Hfile, Hname, Hok, Hfam, Hsty, Hfn.
  unfold rsplit1. rewrite Hr, Hext.
  destruct (method request); [done|..].
  all: unfold uuid4_hex, save, try_except, subprocess_run, redirect, respond,
         flash, path_exists, unlink, modify, gets, mbind, M_bind, mret, M_ret.
  all: world_cbn.
  all: generalize (UPLOAD_DIR // (hex32 (uuid4_int (urandom16 (draws w))) ++
                                  str "." ++ lower suffix)).
  all: generalize (OUTPUT_DIR //
                (sanitize_text (get_or (form request) (str "filename") [])
                 ++ str ".ttf")).
  all: intros ttf img.
  all: destruct (execute _ _) as [| |e|e]; world_cbn;
         [by rewrite lookup_insert_eq|done|..].
  all: destruct (expired 120 (runtime e)); world_cbn; try done.
  all: destruct (files e !! img) eqn:Himg; world_cbn; try done.
  all: destruct (returncode e =? 0)%Z; world_cbn; try done.
  all: by case_bool_decide.
Qed.

Lemma unlink_fs (p : Path) (w : World) :
  fs (snd (unlink p true w)) = delete p (fs w).
Proof.
  unfold unlink. destruct (fs w !! p) eqn:E; [done|].
  symmetry. by apply delete_id.
Qed.

Lemma unlink_log (p : Path) (w : World) :
  log (snd (unlink p true w)) =
  log w ++ (if bool_decide (is_Some (fs w !! p)) then [Unlinked p] else []).
Proof.
  unfold unlink. destruct (fs w !! p) eqn:E; world_cbn; [done|].
  by rewrite app_nil_r.
Qed.

Lemma unlink_rest (p : Path) (w : World) :
  flashes (snd (unlink p true w)) = flashes w
  ∧ procs (snd (unlink p true w)) = procs w
  ∧ draws (snd (unlink p true w)) = draws w.
Proof. unfold unlink. by destruct (fs w !! p). Qed.

Lemma reap_child (pid : N) (started : list Proc) (ps : list Proc) :
  reap pid (Process pid started :: ps) = started ++ ps.
Proof. unfold reap. cbn [proc_pid proc_children]. by rewrite N.eqb_refl. Qed.

(** The messages and the page an accepted request ends with, by what the
    tool did. *)
Lemma job_outcome (request : Request) (file : FileStorage) (w : World)
    (e : Execution) :
  accepted request = Some file →
  tool_answer request file w = Started e →
  ∃ r w',
    generate request w = (inr r, w')
    ∧ on_close r = []
    ∧ body r =
        (if expired 120 (runtime e) then Redirect url_generate
         else if negb (returncode e =? 0)%Z then Redirect url_generate
         else if bool_decide
                   (is_Some (files e !! artifact_path (field request "filename")))
         then Redirect (url_download_font (field request "filename"))
         else Redirect url_generate)
    ∧ flashes w' = flashes w ++
        (if expired 120 (runtime e)
         then [str "Font generation timed out. Please try again."]
         else if negb (returncode e =? 0)%Z
         then [str "handwrite failed: " ++
               py_or (strip (stderr e)) (strip (stdout e))]
         else if bool_decide
                   (is_Some (files e !! artifact_path (field request "filename")))
         then []
         else [str "handwrite ran but produced no output file."])
    ∧ fs w' = delete (upload_path file w) (files e)
    ∧ procs w' = started e ++ procs w
    ∧ draws w' = N.succ (draws w)
    ∧ log w' = log w ++
        Saved (upload_path file w) :: Ran (tool_call request file w) ::
        (if bool_decide (is_Some (files e !! upload_path file w))
         then [Unlinked (upload_path file w)] else []).
Proof.
  intros Hacc Hans. rewrite (generate_accepted _ _ _ Hacc), Hans.
  cbv zeta.
  set (w2 := set_procs _ _).
  assert (Hfs : fs (snd (unlink (upload_path file w) true w2))
                = delete (upload_path file w) (files e))
    by (by rewrite unlink_fs).
  assert (Hart : fs (snd (unlink (upload_path file w) true w2))
                 !! artifact_path (field request "filename")
                 = files e !! artifact_path (field request "filename")).
  { rewrite Hfs. apply lookup_delete_ne, upload_not_artifact. }
  assert (Hlog : log (snd (unlink (upload_path file w) true w2)) =
            log w ++ Saved (upload_path file w) :: Ran (tool_call request file w)
            :: (if bool_decide (is_Some (files e !! upload_path file w))
                then [Unlinked (upload_path file w)] else [])).
  { rewrite unlink_log. unfold w2. world_cbn. by rewrite <- !app_assoc. }
  destruct (unlink_rest (upload_path file w) w2) as (Hfl & Hpr & Hdr).
  assert (Hprocs : procs (snd (unlink (upload_path file w) true w2))
                   = started e ++ procs w).
  { rewrite Hpr. unfold w2. world_cbn. apply reap_child. }
  change (flashes w2) with (flashes w) in Hfl.
  change (draws w2) with (N.succ (draws w)) in Hdr.
  rewrite Hart.
  destruct (expired 120 (runtime e)); [|destruct (negb _);
    [|destruct (bool_decide (is_Some (files e !! artifact_path _)))]].
  all: eexists _, _; split; [reflexivity|]; world_cbn.
  all: rewrite ?Hfl, ?app_nil_r; by split_and!.
Qed.

(** The same when there is no such executable. *)
Lemma job_outcome_missing (request : Request) (file : FileStorage) (w : World) :
  accepted request = Some file →
  tool_answer request file w = NoSuchFile →
  ∃ r w',
    generate request w = (inr r, w')
    ∧ on_close r = []
    ∧ body r = Redirect url_generate
    ∧ flashes w' = flashes w ++
        [str "handwrite is not installed. Run: pip install handwrite"]
    ∧ fs w' = delete (upload_path file w) (fs w)
    ∧ procs w' = procs w
    ∧ draws w' = N.succ (draws w)
    ∧ log w' = log w ++
        [Saved (upload_path file w); Ran (tool_call request file w);
         Unlinked (upload_path file w)].
Proof.
  intros Hacc Hans. rewrite (generate_accepted _ _ _ Hacc), Hans.
  cbv zeta. eexists _, _; split; [reflexivity|]; world_cbn.
  rewrite delete_insert_eq, <- !app_assoc. by split_and!.
Qed.

(** The same when the executable may not be run: the exception leaves
    the view, and the upload stays where it was stored. *)
Lemma job_outcome_denied (request : Request) (file : FileStorage) (w : World) :
  accepted request = Some file →
  tool_answer request file w = NotExecutable →
  ∃ w',
    generate request w = (inl PermissionError, w')
    ∧ flashes w' = flashes w
    ∧ fs w' = <[upload_path file w := stream file]> (fs w)
    ∧ procs w' = procs w
    ∧ draws w' = N.succ (draws w)
    ∧ log w' = log w ++
        [Saved (upload_path file w); Ran (tool_call request file w)].
Proof.
  intros Hacc Hans. rewrite (generate_accepted _ _ _ Hacc), Hans.
  cbv zeta. eexists; split; [reflexivity|]; world_cbn.
  rewrite <- !app_assoc. by split_and!.
Qed.

(** The same when the tool writes something that is not text. *)
Lemma job_outcome_garbled (request : Request) (file : FileStorage) (w : World)
    (e : Execution) :
  accepted request = Some file →
  tool_answer request file w = Garbled e →
  ∃ res w',
    generate request w = (res, w')
    ∧ procs w' = started e ++ procs w
    ∧ draws w' = N.succ (draws w)
    ∧ (if expired 120 (runtime e)
       then res = inr gen_page
            ∧ flashes w' = flashes w ++
                [str "Font generation timed out. Please try again."]
            ∧ fs w' = delete (upload_path file w) (files e)
            ∧ log w' = log w ++
                Saved (upload_path file w) :: Ran (tool_call request file w) ::
                (if bool_decide (is_Some (files e !! upload_path file w))
                 then [Unlinked (upload_path file w)] else [])
       else res = inl UnicodeDecodeError
            ∧ flashes w' = flashes w
            ∧ fs w' = files e
            ∧ log w' = log w ++
                [Saved (upload_path file w); Ran (tool_call request file w)]).
Proof.
  intros Hacc Hans. rewrite (generate_accepted _ _ _ Hacc), Hans.
  cbv zeta.
  set (w2 := set_procs _ _).
  assert (Hprocs : procs w2 = started e ++ procs w).
  { unfold w2. world_cbn. apply reap_child. }
  destruct (expired 120 (runtime e)).
  - destruct (unlink_rest (upload_path file w) w2) as (Hfl & Hpr & Hdr).
    eexists _, _; split; [reflexivity|]; world_cbn.
    rewrite Hpr, Hdr, Hfl, unlink_fs, unlink_log.
    unfold w2. world_cbn. rewrite <- !app_assoc.
    by split_and!.
  - eexists _, _; split; [reflexivity|].
    unfold w2. world_cbn. rewrite <- !app_assoc.
    by split_and!.
Qed.

(** A request that is not accepted. *)
Lemma job_refused (request : Request) (w : World) :
  accepted request = None →
  ∃ r w',
    generate request w = (inr r, w')
    ∧ on_close r = []
    ∧ fs w' = fs w ∧ procs w' = procs w ∧ draws w' = draws w
    ∧ log w' = log w
    ∧ match method request with
      | GET => body r = Rendered (str "generate.html") None
               ∧ flashes w' = flashes w
      | _ => body r = Redirect url_generate
             ∧ ∃ msg, flashes w' = flashes w ++ [msg]
      end.
Proof.
  unfold accepted, generate, field.
  destruct (method request);
    [intros _; eexists _, _; split; [reflexivity|]; by split_and!|..].
  all: destruct (multi_get (str "pngfile") (files_ request)) as [file|];
         [|intros _; eexists _, _; split; [reflexivity|];
           world_cbn; split_and!; eauto].
  all: destruct (pystr_eqb (file_filename file) []);
         [intros _; eexists _, _; split; [reflexivity|];
           world_cbn; split_and!; eauto|].
  all: destruct (allowed_file (file_filename file));
         [|intros _; eexists _, _; split; [reflexivity|];
           world_cbn; split_and!; eauto].
  all: destruct (truthy (sanitize_text (get_or (form request) (str "family") [])));
         [|intros _; eexists _, _; split; [reflexivity|];
           world_cbn; split_and!; eauto].
  all: destruct (truthy (sanitize_text (get_or (form request) (str "style") [])));
         [|intros _; eexists _, _; split; [reflexivity|];
           world_cbn; split_and!; eauto].
  all: destruct (truthy (sanitize_text (get_or (form request) (str "filename") [])));
         [done|intros _; eexists _, _; split; [reflexivity|];
           world_cbn; split_and!; eauto].
Qed.

End Job.

Section JobResults.
Context `{Unicode} `{Deployment}.

Lemma events_since_app (w w' : World) (evs : list Event) :
  log w' = log w ++ evs → events_since w w' = evs.
Proof. intros E. unfold events_since. rewrite E. apply drop_app_length. Qed.

Lemma events_since_same (w w' : World) :
  log w' = log w → events_since w w' = [].
Proof. intros E. apply events_since_app. by rewrite app_nil_r. Qed.

Lemma dispatch_inl (view : M Response) (w w' : World) (e : Exn) :
  view w = (inl e, w') →
  (∀ code description, e ≠ HTTPException code description) →
  dispatch view w
  = ({| body := Status 500; on_close := []; direct_passthrough := false |}, w').
Proof.
  intros E Hne. unfold dispatch. rewrite E.
  destruct e; try done. by destruct (Hne code description).
Qed.

(** [X5] How [generate] answers.  A [GET] gets the form (200); a refused
    submission is sent back to the form (302); an accepted one is
    answered 302 whenever [subprocess.run] returns or raises one of the
    two exceptions the view handles, and 500 when it raises another one:
    [PermissionError] for a tool that may not be run,
    [UnicodeDecodeError] for a tool that ends in time with output that is
    not text.  No function is left to run when the response closes, and
    the index [[1]] into the split file name is never out of range, since
    an accepted name has a dot.  (The request is one the framework has
    already parsed; a body over the size limit does not get this far.) *)
Theorem generate_status (request : Request) (w : World) :
  let r := fst (dispatch (generate request) w) in
  status_of r =
    match accepted request with
    | None => match method request with GET => 200 | _ => 302 end
    | Some file =>
        match tool_answer request file w with
        | NotExecutable => 500
        | Garbled e => if expired 120 (runtime e) then 302 else 500
        | NoSuchFile | Started _ => 302
        end
    end
  ∧ on_close r = []
  ∧ fst (generate request w) ≠ inl IndexError.
Proof.
  cbv zeta. destruct (accepted request) as [file|] eqn:Hacc.
  - destruct (tool_answer request file w) as [| |e|e] eqn:Hans.
    + destruct (job_outcome_missing _ _ _ Hacc Hans)
        as (r & w' & Hrun & Hclose & Hbody & _).
      rewrite (dispatch_inr _ _ _ _ Hrun), Hrun. cbn [fst].
      unfold status_of. rewrite Hbody. by split_and!.
    + destruct (job_outcome_denied _ _ _ Hacc Hans) as (w' & Hrun & _).
      rewrite (dispatch_inl _ _ _ _ Hrun), Hrun by done. by split_and!.
    + destruct (job_outcome _ _ _ _ Hacc Hans)
        as (r & w' & Hrun & Hclose & Hbody & _).
      rewrite (dispatch_inr _ _ _ _ Hrun), Hrun. cbn [fst].
      unfold status_of. rewrite Hbody. split_and!; [|done..].
      destruct (expired 120 (runtime e)); [done|].
      destruct (negb _); [done|].
      by destruct (bool_decide _).
    + destruct (job_outcome_garbled _ _ _ _ Hacc Hans)
        as (res & w' & Hrun & _ & _ & Hcase).
      destruct (expired 120 (runtime e)); destruct Hcase as (-> & _).
      * rewrite (dispatch_inr _ _ _ _ Hrun), Hrun. by split_and!.
      * rewrite (dispatch_inl _ _ _ _ Hrun), Hrun by done. by split_and!.
  - destruct (job_refused _ w Hacc)
      as (r & w' & Hrun & Hclose & _ & _ & _ & _ & Hm).
    rewrite (dispatch_inr _ _ _ _ Hrun), Hrun. cbn [fst].
    split_and!; [|done..].
    unfold status_of.
    destruct (method request); destruct Hm as [-> _]; done.
Qed.

(** [X6] A request that is not accepted (a [GET], no file part, an empty
    file name, a refused extension, or a text input that sanitizes to
    nothing) changes nothing but the queue of messages: no file is
    written or removed, nothing is run, no identifier is drawn.  A refused
    submission queues exactly one message and is sent back to the form. *)
Theorem generate_refusal_has_no_effect (request : Request) (w : World) :
  accepted request = None →
  let r := fst (dispatch (generate request) w) in
  let w' := snd (dispatch (generate request) w) in
  fs w' = fs w ∧ events_since w w' = [] ∧ procs w' = procs w
  ∧ draws w' = draws w
  ∧ (method request ≠ GET →
     body r = Redirect url_generate ∧ ∃ msg, flashes w' = flashes w ++ [msg]).
Proof.
  intros Hacc.
  destruct (job_refused _ w Hacc)
    as (r & w' & Hrun & _ & Hfs & Hpr & Hdr & Hlog & Hm).
  rewrite (dispatch_inr _ _ _ _ Hrun). cbn [fst snd].
  split_and!; [done|by apply events_since_same|done..|].
  intros Hne. by destruct (method request).
Qed.

(** [X7] Whenever [generate] answers without a server error, whatever
    the request and whatever the tool did (not installed, too slow,
    failing, succeeding), no file that it saved is left when it
    returns. *)
Theorem generate_leaves_no_upload (request : Request) (w : World) (p : Path) :
  let r := fst (dispatch (generate request) w) in
  let w' := snd (dispatch (generate request) w) in
  Saved p ∈ events_since w w' → status_of r ≠ 500 → fs w' !! p = None.
Proof.
  cbv zeta. destruct (accepted request) as [file|] eqn:Hacc.
  - destruct (tool_answer request file w) as [| |e|e] eqn:Hans.
    + destruct (job_outcome_missing _ _ _ Hacc Hans)
        as (r & w' & Hrun & _ & _ & _ & Hfs & _ & _ & Hlog).
      rewrite (dispatch_inr _ _ _ _ Hrun). cbn [fst snd].
      rewrite (events_since_app _ _ _ Hlog), Hfs.
      rewrite !elem_of_cons. intros [[= ->]|[[=]|[[=]|Hin]]] _.
      * apply lookup_delete_eq.
      * by apply elem_of_nil in Hin.
    + destruct (job_outcome_denied _ _ _ Hacc Hans) as (w' & Hrun & _).
      rewrite (dispatch_inl _ _ _ _ Hrun) by done. by intros _ [].
    + destruct (job_outcome _ _ _ _ Hacc Hans)
        as (r & w' & Hrun & _ & _ & _ & Hfs & _ & _ & Hlog).
      rewrite (dispatch_inr _ _ _ _ Hrun). cbn [fst snd].
      rewrite (events_since_app _ _ _ Hlog), Hfs.
      rewrite !elem_of_cons. intros [[= ->]|[[=]|Hin]] _.
      * apply lookup_delete_eq.
      * destruct (bool_decide _); [|by apply elem_of_nil in Hin].
        by apply list_elem_of_singleton in Hin.
    + destruct (job_outcome_garbled _ _ _ _ Hacc Hans)
        as (res & w' & Hrun & _ & _ & Hcase).
      destruct (expired 120 (runtime e));
        destruct Hcase as (-> & _ & Hfs & Hlog).
      * rewrite (dispatch_inr _ _ _ _ Hrun). cbn [fst snd].
        rewrite (events_since_app _ _ _ Hlog), Hfs.
        rewrite !elem_of_cons. intros [[= ->]|[[=]|Hin]] _.
        -- apply lookup_delete_eq.
        -- destruct (bool_decide _); [|by apply elem_of_nil in Hin].
           by apply list_elem_of_singleton in Hin.
      * rewrite (dispatch_inl _ _ _ _ Hrun) by done. by intros _ [].
  - destruct (job_refused _ w Hacc)
      as (r & w' & Hrun & _ & _ & _ & _ & Hlog & _).
    rewrite (dispatch_inr _ _ _ _ Hrun). cbn [snd].
    rewrite (events_since_same _ _ Hlog). by intros ?%elem_of_nil.
Qed.

Lemma dispatch_world (view : M Response) (w : World) :
  snd (dispatch view w) = snd (view w).
Proof.
  unfold dispatch. destruct (view w) as [[e|r] w']; [|done].
  by destruct e.
Qed.

(** What a request logs, whatever the tool answers. *)
Lemma job_events (request : Request) (file : FileStorage) (w : World) :
  accepted request = Some file →
  ∃ rest,
    events_since w (snd (dispatch (generate request) w))
    = Saved (upload_path file w) :: Ran (tool_call request file w) :: rest
    ∧ (rest = [] ∨ rest = [Unlinked (upload_path file w)]).
Proof.
  intros Hacc. rewrite dispatch_world.
  destruct (tool_answer request file w) as [| |e|e] eqn:Hans.
  - destruct (job_outcome_missing _ _ _ Hacc Hans)
      as (r & w' & Hrun & _ & _ & _ & _ & _ & _ & Hlog).
    rewrite Hrun. cbn [snd].
    rewrite (events_since_app _ _ _ Hlog). eauto.
  - destruct (job_outcome_denied _ _ _ Hacc Hans)
      as (w' & Hrun & _ & _ & _ & _ & Hlog).
    rewrite Hrun. cbn [snd].
    rewrite (events_since_app _ _ _ Hlog). eauto.
  - destruct (job_outcome _ _ _ _ Hacc Hans)
      as (r & w' & Hrun & _ & _ & _ & _ & _ & _ & Hlog).
    rewrite Hrun. cbn [snd].
    rewrite (events_since_app _ _ _ Hlog).
    eexists; split; [done|]. destruct (bool_decide _); auto.
  - destruct (job_outcome_garbled _ _ _ _ Hacc Hans)
      as (res & w' & Hrun & _ & _ & Hcase).
    rewrite Hrun. cbn [snd].
    destruct (expired 120 (runtime e));
      destruct Hcase as (_ & _ & _ & Hlog);
      rewrite (events_since_app _ _ _ Hlog).
    + eexists; split; [done|]. destruct (bool_decide _); auto.
    + eauto.
Qed.

(** [X8] The upload of an accepted request is stored directly inside the
    upload directory under [<job id>.<ext>]: the job id is 32 lower-case
    hexadecimal digits, and the extension is what follows the last dot of
    the client's file name, lowered, hence one of [png], [jpg], [jpeg].
    Nothing else of the client's file name reaches the path. *)
Theorem generate_stores_upload (request : Request) (file : FileStorage)
    (w : World) :
  accepted request = Some file →
  ∃ job_id base suffix rest,
    events_since w (snd (dispatch (generate request) w))
    = Saved (UPLOAD_DIR ++ [job_id ++ str "." ++ lower suffix]) :: rest
    ∧ length job_id = 32%nat
    ∧ Forall (λ c, is_hex c = true) job_id
    ∧ file_filename file = base ++ DOT :: suffix
    ∧ (DOT ∉ suffix)
    ∧ lower suffix ∈ ALLOWED_EXTENSIONS
    ∧ direct_child UPLOAD_DIR (UPLOAD_DIR ++ [job_id ++ str "." ++ lower suffix]).
Proof.
  intros Hacc. destruct (job_events _ _ w Hacc) as (rest & Hev & _).
  apply accepted_inv in Hacc as (_ & _ & _ & Hok & _).
  apply allowed_file_suffix in Hok as Hsuf.
  destruct Hsuf as (base & suffix & Hr & Hin).
  pose proof (upload_path_child file w Hok) as Hchild.
  unfold upload_path, stored_ext in Hev, Hchild. rewrite Hr in Hev, Hchild.
  apply rsplit_last_spec in Hr as [Hname Hdot].
  exists (job_id_of w), base, suffix, (Ran (tool_call request file w) :: rest).
  split_and!; [done|apply job_id_length|apply job_id_hex|done..].
Qed.

(** [X9] An accepted request runs the tool exactly once, after storing
    the upload and before anything else: without a shell, with a limit of
    120 seconds, output captured as text, and an argument vector of nine
    elements in which each text input is one element of its own, in its
    sanitized form.  The only thing [generate] does afterwards to the
    file system is to unlink the upload. *)
Theorem generate_runs_tool_once (request : Request) (file : FileStorage)
    (w : World) :
  accepted request = Some file →
  ∃ img rest,
    events_since w (snd (dispatch (generate request) w))
    = Saved img ::
      Ran {| args := [str "handwrite"; path_str img; path_str OUTPUT_DIR;
                      str "--family"; field request "family";
                      str "--style"; field request "style";
                      str "--filename"; field request "filename"];
             shell := false; capture_output := true; text := true;
             timeout := 120 |} :: rest
    ∧ (rest = [] ∨ rest = [Unlinked img])
    ∧ field request "family" ≠ []
    ∧ field request "style" ≠ []
    ∧ field request "filename" ≠ [].
Proof.
  intros Hacc. destruct (job_events _ _ w Hacc) as (rest & Hev & Hrest).
  apply accepted_inv in Hacc
    as (_ & _ & _ & _ & Hf%truthy_spec & Hs%truthy_spec & Hn%truthy_spec).
  exists (upload_path file w), rest. by split_and!.
Qed.

(** [X10] When the tool is not installed, an accepted request starts no
    process, queues the "not installed" message, goes back to the form,
    and leaves the file system as it was except that nothing is left at
    the upload's path. *)
Theorem generate_tool_missing (request : Request) (file : FileStorage)
    (w : World) :
  accepted request = Some file →
  tool_answer request file w = NoSuchFile →
  let r := fst (dispatch (generate request) w) in
  let w' := snd (dispatch (generate request) w) in
  body r = Redirect url_generate
  ∧ flashes w' = flashes w ++
      [str "handwrite is not installed. Run: pip install handwrite"]
  ∧ fs w' = delete (upload_path file w) (fs w)
  ∧ procs w' = procs w.
Proof.
  intros Hacc Hans.
  destruct (job_outcome_missing _ _ _ Hacc Hans)
    as (r & w' & Hrun & _ & Hbody & Hfl & Hfs & Hpr & _).
  by rewrite (dispatch_inr _ _ _ _ Hrun).
Qed.

(** [X11] When the tool is still running after 120 seconds, the request
    queues the "timed out" message and goes back to the form; the upload
    is gone and every other file is as the tool left it; the child has
    been killed and reaped, but the processes the child had started are
    still alive, now as orphans. *)
Theorem generate_timeout (request : Request) (file : FileStorage)
    (w : World) (e : Execution) :
  accepted request = Some file →
  tool_answer request file w = Started e →
  expired 120 (runtime e) = true →
  let r := fst (dispatch (generate request) w) in
  let w' := snd (dispatch (generate request) w) in
  body r = Redirect url_generate
  ∧ flashes w' = flashes w ++
      [str "Font generation timed out. Please try again."]
  ∧ fs w' = delete (upload_path file w) (files e)
  ∧ procs w' = started e ++ procs w.
Proof.
  intros Hacc Hans Hexp.
  destruct (job_outcome _ _ _ _ Hacc Hans)
    as (r & w' & Hrun & _ & Hbody & Hfl & Hfs & Hpr & _).
  rewrite Hexp in Hbody, Hfl.
  by rewrite (dispatch_inr _ _ _ _ Hrun).
Qed.

(** [X12] When the tool ends in time with a non-zero status, the request
    goes back to the form with the message ["handwrite failed: "]
    followed by the stripped standard error, or by the stripped standard
    output when that is empty.  The upload is removed, but a font the tool
    may have written is not: every file but the upload is as the tool left
    it. *)
Theorem generate_tool_failure (request : Request) (file : FileStorage)
    (w : World) (e : Execution) :
  accepted request = Some file →
  tool_answer request file w = Started e →
  expired 120 (runtime e) = false →
  returncode e ≠ 0%Z →
  let r := fst (dispatch (generate request) w) in
  let w' := snd (dispatch (generate request) w) in
  body r = Redirect url_generate
  ∧ flashes w' = flashes w ++
      [str "handwrite failed: " ++
       (if truthy (strip (stderr e)) then strip (stderr e)
        else strip (stdout e))]
  ∧ fs w' = delete (upload_path file w) (files e)
  ∧ fs w' !! artifact_path (field request "filename")
    = files e !! artifact_path (field request "filename").
Proof.
  intros Hacc Hans Hexp Hrc%Z.eqb_neq.
  destruct (job_outcome _ _ _ _ Hacc Hans)
    as (r & w' & Hrun & _ & Hbody & Hfl & Hfs & _).
  rewrite Hexp, Hrc in Hbody, Hfl. cbn [negb] in Hbody, Hfl.
  rewrite (dispatch_inr _ _ _ _ Hrun). cbn [fst snd].
  split_and!; [done..|].
  rewrite Hfs. apply lookup_delete_ne, upload_not_artifact.
Qed.

(** [X13] When the tool ends in time, the request is sent on to the
    download page exactly when the exit status is zero and the font file
    named after the sanitized file-name input exists in the output
    directory; the page is keyed by that sanitized name.  In every other
    case it goes back to the form; a zero status without the file queues
    the "no output file" message. *)
Theorem generate_success_iff (request : Request) (file : FileStorage)
    (w : World) (e : Execution) :
  accepted request = Some file →
  tool_answer request file w = Started e →
  expired 120 (runtime e) = false →
  let r := fst (dispatch (generate request) w) in
  let w' := snd (dispatch (generate request) w) in
  let ttf := OUTPUT_DIR ++ [field request "filename" ++ str ".ttf"] in
  (returncode e = 0%Z ∧ is_Some (files e !! ttf) →
     body r = Redirect (url_download_font (field request "filename"))
     ∧ flashes w' = flashes w
     ∧ fs w' !! ttf = files e !! ttf)
  ∧ (¬ (returncode e = 0%Z ∧ is_Some (files e !! ttf)) →
     body r = Redirect url_generate)
  ∧ (returncode e = 0%Z → files e !! ttf = None →
     flashes w' = flashes w ++
       [str "handwrite ran but produced no output file."]).
Proof.
  intros Hacc Hans Hexp.
  destruct (job_outcome _ _ _ _ Hacc Hans)
    as (r & w' & Hrun & _ & Hbody & Hfl & Hfs & _).
  rewrite Hexp in Hbody, Hfl.
  rewrite (dispatch_inr _ _ _ _ Hrun). cbn [fst snd].
  change (OUTPUT_DIR ++ [field request "filename" ++ str ".ttf"])
    with (artifact_path (field request "filename")).
  split_and!.
  - intros [Hrc Hfile]. rewrite Hrc in Hbody, Hfl. cbn [Z.eqb negb] in *.
    rewrite bool_decide_eq_true_2 in Hbody, Hfl by done.
    rewrite app_nil_r in Hfl. split_and!; [done..|].
    rewrite Hfs. apply lookup_delete_ne, upload_not_artifact.
  - intros Hno. destruct (Z.eqb_spec (returncode e) 0) as [Hrc|Hrc];
      cbn [negb] in Hbody; [|done].
    rewrite bool_decide_eq_false_2 in Hbody by tauto. done.
  - intros Hrc Hno. rewrite Hrc in Hfl. cbn [Z.eqb negb] in Hfl.
    rewrite bool_decide_eq_false_2 in Hfl; [done|].
    rewrite Hno. by intros [? ?].
Qed.

(** [X20] When the tool is found but may not be run, the
    [PermissionError] of [subprocess.run] is not handled: an accepted
    request is answered 500 without a message, no process is started, and
    the upload stays in the upload directory. *)
Theorem generate_not_executable (request : Request) (file : FileStorage)
    (w : World) :
  accepted request = Some file →
  tool_answer request file w = NotExecutable →
  let r := fst (dispatch (generate request) w) in
  let w' := snd (dispatch (generate request) w) in
  body r = Status 500
  ∧ flashes w' = flashes w
  ∧ fs w' = <[upload_path file w := stream file]> (fs w)
  ∧ fs w' !! upload_path file w = Some (stream file)
  ∧ procs w' = procs w.
Proof.
  intros Hacc Hans.
  destruct (job_outcome_denied _ _ _ Hacc Hans)
    as (w' & Hrun & Hfl & Hfs & Hpr & _).
  rewrite (dispatch_inl _ _ _ _ Hrun) by done. cbn [fst snd body].
  split_and!; [done..| |done]. rewrite Hfs. apply lookup_insert_eq.
Qed.

(** [X21] When the tool ends in time but its output is not text, the
    [UnicodeDecodeError] of [subprocess.run] is not handled either: the
    request is answered 500 without a message and [generate] unlinks
    nothing, so that every file, the upload included, is as the tool left
    it. *)
Theorem generate_undecodable_output (request : Request) (file : FileStorage)
    (w : World) (e : Execution) :
  accepted request = Some file →
  tool_answer request file w = Garbled e →
  expired 120 (runtime e) = false →
  let r := fst (dispatch (generate request) w) in
  let w' := snd (dispatch (generate request) w) in
  body r = Status 500
  ∧ flashes w' = flashes w
  ∧ fs w' = files e
  ∧ procs w' = started e ++ procs w.
Proof.
  intros Hacc Hans Hexp.
  destruct (job_outcome_garbled _ _ _ _ Hacc Hans)
    as (res & w' & Hrun & Hpr & _ & Hcase).
  rewrite Hexp in Hcase. destruct Hcase as (-> & Hfl & Hfs & _).
  rewrite (dispatch_inl _ _ _ _ Hrun) by done. by split_and!.
Qed.

End JobResults.

(** ** From the job to the download *)

Section RoundTrip.
Context `{Unicode} `{Deployment}.

Lemma sanitize_text_twice (x : pystr) :
  sanitize_text (sanitize_text x) = sanitize_text x.
Proof.
  unfold sanitize_text at 1.
  rewrite filter_id by apply sanitize_text_safe.
  unfold sanitize_text. apply strip_idem.
Qed.

Lemma field_passes_key_check (request : Request) (name : string) :
  field request name ≠ [] →
  negb (truthy (sanitize_text (field request name)))
  || negb (pystr_eqb (sanitize_text (field request name)) (field request name))
  = false.
Proof.
  intros Hne. apply key_check_passes. split; [|done].
  apply sanitize_text_twice.
Qed.

Lemma artifact_path_field (request : Request) (name : string) :
  OUTPUT_DIR // (field request name ++ str ".ttf")
  = artifact_path (field request name).
Proof. apply artifact_path_joined. Qed.

(** [X14] The redirect of a successful job leads somewhere: with the
    key it carries, the download page is shown, and the file endpoint
    hands out, under the name [<key>.ttf], exactly the bytes the tool
    wrote.  The download changes nothing: the function that would unlink
    the font is registered on a response that is never closed, so the
    font is still stored afterwards and only the upload is gone. *)
Theorem generate_then_retrieve (request : Request) (file : FileStorage)
    (w : World) (e : Execution) (data : list N) (t : Transfer) :
  accepted request = Some file →
  tool_answer request file w = Started e →
  expired 120 (runtime e) = false →
  returncode e = 0%Z →
  files e !! artifact_path (field request "filename") = Some data →
  let key := field request "filename" in
  let w' := snd (dispatch (generate request) w) in
  body (fst (dispatch (generate request) w)) = Redirect (url_download_font key)
  ∧ body (fst (serve (download_font key) t w'))
    = Rendered (str "download.html") (Some key)
  ∧ body (fst (serve (serve_font_file key) t w'))
    = Attachment (artifact_path key) (key ++ str ".ttf") data
  ∧ snd (serve (serve_font_file key) t w') = w'
  ∧ fs w' = delete (upload_path file w) (files e)
  ∧ fs w' !! artifact_path key = Some data.
Proof.
  intros Hacc Hans Hexp Hrc Hdata.
  destruct (job_outcome _ _ _ _ Hacc Hans)
    as (r & w' & Hrun & _ & Hbody & _ & Hfs & _).
  rewrite Hexp, Hrc, Hdata in Hbody. cbn [Z.eqb negb] in Hbody.
  rewrite bool_decide_eq_true_2 in Hbody by eauto.
  apply accepted_inv in Hacc as (_ & _ & _ & _ & _ & _ & Hn%truthy_spec).
  rewrite (dispatch_inr _ _ _ _ Hrun). cbn [fst snd].
  assert (Hthere : fs w' !! artifact_path (field request "filename")
                   = Some data).
  { rewrite Hfs, lookup_delete_ne by apply upload_not_artifact. done. }
  unfold serve.
  rewrite download_font_dispatch, serve_font_file_dispatch.
  rewrite field_passes_key_check by done.
  rewrite artifact_path_field, Hthere.
  rewrite bool_decide_eq_true_2 by eauto.
  split_and!; [done|by destruct t|by destruct t|by destruct t|done..].
Qed.

(** [X15] [generate] does not tell a font the tool has just written from
    one that was there before: when the tool exits with status zero and
    touches no file, a font already stored under the same name makes the
    job count as a success, and the download page offers the old file. *)
Theorem generate_accepts_stale_font (request : Request) (file : FileStorage)
    (w : World) (e : Execution) (old : list N) :
  accepted request = Some file →
  tool_answer request file w = Started e →
  expired 120 (runtime e) = false →
  returncode e = 0%Z →
  files e = <[upload_path file w := stream file]> (fs w) →
  fs w !! artifact_path (field request "filename") = Some old →
  let w' := snd (dispatch (generate request) w) in
  body (fst (dispatch (generate request) w))
  = Redirect (url_download_font (field request "filename"))
  ∧ fs w' !! artifact_path (field request "filename") = Some old.
Proof.
  intros Hacc Hans Hexp Hrc Hfiles Hold.
  assert (Hdata : files e !! artifact_path (field request "filename")
                  = Some old).
  { rewrite Hfiles, lookup_insert_ne by apply upload_not_artifact. done. }
  destruct (job_outcome _ _ _ _ Hacc Hans)
    as (r & w' & Hrun & _ & Hbody & _ & Hfs & _).
  rewrite Hexp, Hrc, Hdata in Hbody. cbn [Z.eqb negb] in Hbody.
  rewrite bool_decide_eq_true_2 in Hbody by eauto.
  rewrite (dispatch_inr _ _ _ _ Hrun). cbn [fst snd].
  split; [done|].
  rewrite Hfs, lookup_delete_ne by apply upload_not_artifact. done.
Qed.

(** [X16] The two retrieval endpoints always agree on the status: the
    download page is shown for exactly the keys and worlds for which the
    file can be fetched. *)
Theorem retrieval_endpoints_agree (key : pystr) (t : Transfer) (w : World) :
  status_of (fst (serve (download_font key) t w))
  = status_of (fst (serve (serve_font_file key) t w)).
Proof.
  unfold serve. rewrite download_font_dispatch, serve_font_file_dispatch.
  destruct (negb _ || negb _); [by destruct t|].
  destruct (fs w !! (OUTPUT_DIR // (key ++ str ".ttf"))) as [data|] eqn:E.
  - rewrite bool_decide_eq_true_2 by eauto. by destruct t.
  - rewrite bool_decide_eq_false_2 by (by intros [? ?]). by destruct t.
Qed.

(** [X17] A request to the file endpoint that is not answered with the
    file leaves everything as it was: a refused key or an unknown key
    deletes nothing. *)
Theorem serve_font_file_refusal_keeps_files (key : pystr) (t : Transfer)
    (w : World) :
  status_of (fst (serve (serve_font_file key) t w)) ≠ 200 →
  snd (serve (serve_font_file key) t w) = w.
Proof.
  unfold serve. rewrite serve_font_file_dispatch.
  destruct (negb _ || negb _); [by destruct t|].
  destruct (fs w !! (OUTPUT_DIR // (key ++ str ".ttf"))) as [data|] eqn:E.
  - by destruct t.
  - by destruct t.
Qed.

(** [X18] What the file endpoint hands out is always a file directly
    inside the output directory, named [<key>.ttf], with the bytes stored
    there; the key is then one that sanitizing leaves unchanged. *)
Theorem serve_font_file_stays_inside (key : pystr) (t : Transfer) (w : World) :
  status_of (fst (serve (serve_font_file key) t w)) = 200 →
  ∃ data,
    body (fst (serve (serve_font_file key) t w))
    = Attachment (OUTPUT_DIR ++ [key ++ str ".ttf"]) (key ++ str ".ttf") data
    ∧ fs w !! (OUTPUT_DIR ++ [key ++ str ".ttf"]) = Some data
    ∧ direct_child OUTPUT_DIR (OUTPUT_DIR ++ [key ++ str ".ttf"])
    ∧ sanitize_text key = key.
Proof.
  assert (sanitize_text key = key →
          OUTPUT_DIR // (key ++ str ".ttf")
          = OUTPUT_DIR ++ [key ++ str ".ttf"]
          ∧ direct_child OUTPUT_DIR (OUTPUT_DIR ++ [key ++ str ".ttf"]))
    as Hpath.
  { intros Hkey. destruct (ttf_name_plain key) as (Hs & Hn & Hd & Hdd).
    rewrite Hkey in Hs, Hn, Hd, Hdd. split; [by apply joinpath_plain|].
    unfold direct_child. eauto 10. }
  unfold serve. rewrite serve_font_file_dispatch.
  destruct (negb _ || negb _) eqn:Hbad; [by destruct t; cbn|].
  apply key_check_passes in Hbad as [Hkey _].
  destruct (Hpath Hkey) as [Hp Hchild]. rewrite <- Hp.
  destruct (fs w !! (OUTPUT_DIR // (key ++ str ".ttf"))) as [data|] eqn:E;
    [|by destruct t; cbn].
  intros _. exists data.
  split_and!; [by destruct t|done|by rewrite Hp|done].
Qed.

(** [X19] The template download is a plain read: it answers with the
    bytes of [template.jpg] next to the application when that file
    exists and with 404 when it does not, registers nothing to run on
    close, and in both cases leaves the world as it was, so that the
    template can be fetched any number of times. *)
Theorem download_template_repeatable (t : Transfer) (w : World) :
  let r := fst (serve download_template t w) in
  snd (serve download_template t w) = w
  ∧ on_close r = []
  ∧ body r = match fs w !! (BASE_DIR ++ [str "template.jpg"]) with
             | Some data =>
                 Attachment (BASE_DIR ++ [str "template.jpg"])
                   (str "template.jpg") data
             | None => Status 404
             end.
Proof.
  assert (Hplain : SLASH ∉ str "template.jpg")
    by (apply (bool_decide_unpack _); by vm_compute).
  assert (Hpath : BASE_DIR // str "template.jpg"
                  = BASE_DIR ++ [str "template.jpg"])
    by (by apply joinpath_plain).
  assert (Hjoin : safe_join BASE_DIR (str "template.jpg")
                  = Some (BASE_DIR ++ [str "template.jpg"])).
  { unfold safe_join. rewrite root_of_plain, split_plain by done.
    by rewrite Hpath. }
  unfold serve, dispatch, download_template, send_from_directory,
    TEMPLATE_PNG.
  rewrite Hjoin, Hpath.
  unfold path_exists, respond, when, abort, raise, gets, mbind, M_bind,
    mret, M_ret.
  destruct (fs w !! (BASE_DIR ++ [str "template.jpg"])) as [data|] eqn:E.
  - rewrite bool_decide_eq_true_2 by eauto. cbn [negb]. rewrite E.
    by destruct t.
  - rewrite bool_decide_eq_false_2 by (by intros [? ?]). cbn [negb].
    by destruct t.
Qed.

End RoundTrip.

(** ** The job, as the specification words it *)

Section JobClaims.
Context `{Unicode} `{Deployment}.

Lemma refused_not_accepted (request : Request) :
  (multi_get (str "pngfile") (files_ request) = None
   ∨ ∃ file, multi_get (str "pngfile") (files_ request) = Some file
       ∧ (file_filename file = []
          ∨ allowed_file (file_filename file) = false
          ∨ field request "family" = []
          ∨ field request "style" = []
          ∨ field request "filename" = [])) →
  accepted request = None.
Proof.
  unfold accepted. intros [Hno|(file & Hfile & Hbad)].
  - rewrite Hno. by destruct (method request).
  - rewrite Hfile.
    assert (negb (pystr_eqb (file_filename file) [])
            && allowed_file (file_filename file)
            && truthy (field request "family")
            && truthy (field request "style")
            && truthy (field request "filename") = false) as ->.
    { destruct Hbad as [E|[E|[E|[E|E]]]]; rewrite E;
        by rewrite ?andb_false_r. }
    by destruct (method request).
Qed.

(** [C5] A submission that fails validation (no file part, an empty file
    name, an extension [allowed_file] refuses, or a family, style or
    file-name input that is empty after sanitizing) writes no file, in
    the upload directory or anywhere else, never runs the tool and starts
    no process; it is sent back to the form. *)
Theorem refused_submission_runs_nothing (request : Request) (w : World) :
  method request ≠ GET →
  (multi_get (str "pngfile") (files_ request) = None
   ∨ ∃ file, multi_get (str "pngfile") (files_ request) = Some file
       ∧ (file_filename file = []
          ∨ allowed_file (file_filename file) = false
          ∨ field request "family" = []
          ∨ field request "style" = []
          ∨ field request "filename" = [])) →
  let r := fst (dispatch (generate request) w) in
  let w' := snd (dispatch (generate request) w) in
  fs w' = fs w
  ∧ (∀ p, Saved p ∉ events_since w w')
  ∧ (∀ call, Ran call ∉ events_since w w')
  ∧ procs w' = procs w
  ∧ body r = Redirect url_generate.
Proof.
  intros Hm Hbad%refused_not_accepted.
  destruct (job_refused _ w Hbad)
    as (r & w' & Hrun & _ & Hfs & Hpr & _ & Hlog & Hcase).
  rewrite (dispatch_inr _ _ _ _ Hrun). cbn [fst snd].
  rewrite (events_since_same _ _ Hlog).
  split_and!; [done|intros p; apply not_elem_of_nil
              |intros c; apply not_elem_of_nil|done|].
  destruct (method request); [done|..]; by destruct Hcase.
Qed.

(** [C7] The success redirect is given exactly when the tool ended in
    time with status zero and the file [<sanitized file name>.ttf] is in
    the output directory, and it is keyed by that sanitized name.  A zero
    status without the file is a failure: the request goes back to the
    form with the message that no output file was produced. *)
Theorem success_needs_the_output_file (request : Request) (w : World) :
  let r := fst (dispatch (generate request) w) in
  let w' := snd (dispatch (generate request) w) in
  let ttf := OUTPUT_DIR ++ [field request "filename" ++ str ".ttf"] in
  (∀ key, body r = Redirect (url_download_font key) ↔
     ∃ file e, accepted request = Some file
       ∧ tool_answer request file w = Started e
       ∧ expired 120 (runtime e) = false
       ∧ returncode e = 0%Z
       ∧ is_Some (files e !! ttf)
       ∧ key = field request "filename")
  ∧ (∀ file e, accepted request = Some file →
       tool_answer request file w = Started e →
       expired 120 (runtime e) = false →
       returncode e = 0%Z →
       files e !! ttf = None →
       body r = Redirect url_generate
       ∧ flashes w' = flashes w ++
           [str "handwrite ran but produced no output file."]).
Proof.
  cbv zeta.
  change (OUTPUT_DIR ++ [field request "filename" ++ str ".ttf"])
    with (artifact_path (field request "filename")).
  split.
  - intros key. split.
    + destruct (accepted request) as [file|] eqn:Hacc.
      * destruct (tool_answer request file w) as [| |e|e] eqn:Hans.
        -- destruct (job_outcome_missing _ _ _ Hacc Hans)
             as (r & w' & Hrun & _ & Hbody & _).
           rewrite (dispatch_inr _ _ _ _ Hrun). cbn [fst].
           by rewrite Hbody.
        -- destruct (job_outcome_denied _ _ _ Hacc Hans) as (w' & Hrun & _).
           by rewrite (dispatch_inl _ _ _ _ Hrun).
        -- destruct (job_outcome _ _ _ _ Hacc Hans)
             as (r & w' & Hrun & _ & Hbody & _).
           rewrite (dispatch_inr _ _ _ _ Hrun). cbn [fst]. rewrite Hbody.
           destruct (expired 120 (runtime e)) eqn:Hexp; [done|].
           destruct (Z.eqb_spec (returncode e) 0) as [Hrc|Hrc];
             cbn [negb]; [|done].
           case_bool_decide as Hfile; [|done].
           intros [= <-]. exists file, e. by split_and!.
        -- destruct (job_outcome_garbled _ _ _ _ Hacc Hans)
             as (res & w' & Hrun & _ & _ & Hcase).
           destruct (expired 120 (runtime e)); destruct Hcase as (-> & _).
           ++ by rewrite (dispatch_inr _ _ _ _ Hrun).
           ++ by rewrite (dispatch_inl _ _ _ _ Hrun).
      * destruct (job_refused _ w Hacc)
          as (r & w' & Hrun & _ & _ & _ & _ & _ & Hcase).
        rewrite (dispatch_inr _ _ _ _ Hrun). cbn [fst].
        destruct (method request); destruct Hcase as [-> _]; done.
    + intros (file & e & Hacc & Hans & Hexp & Hrc & Hfile & ->).
      destruct (job_outcome _ _ _ _ Hacc Hans)
        as (r & w' & Hrun & _ & Hbody & _).
      rewrite (dispatch_inr _ _ _ _ Hrun). cbn [fst]. rewrite Hbody.
      rewrite Hexp, Hrc. cbn [Z.eqb negb].
      by rewrite bool_decide_eq_true_2.
  - intros file e Hacc Hans Hexp Hrc Hno.
    destruct (job_outcome _ _ _ _ Hacc Hans)
      as (r & w' & Hrun & _ & Hbody & Hfl & _).
    rewrite (dispatch_inr _ _ _ _ Hrun). cbn [fst snd].
    rewrite Hbody, Hfl, Hexp, Hrc, Hno. cbn [Z.eqb negb].
    rewrite bool_decide_eq_false_2 by (by intros [? ?]). done.
Qed.

(** [C10] The extension check looks only at what follows the last dot of
    the name and compares its lower-case form with the three extensions:
    what stands before that dot, nothing at all or further dots included,
    plays no part, so that [".png"] and ["a.tar.PNG"] are accepted.  And
    whatever file [generate] saves, it saves directly inside the upload
    directory under [<32 hexadecimal digits>.<that lowered suffix>]; no
    other part of the client's file name is in the path. *)
Theorem extension_check_and_stored_name :
  (∀ base suffix, DOT ∉ suffix →
     allowed_file (base ++ DOT :: suffix)
     = in_strs (lower suffix) ALLOWED_EXTENSIONS)
  ∧ (∀ base suffix, DOT ∉ suffix → lower suffix ∈ ALLOWED_EXTENSIONS →
     allowed_file (base ++ DOT :: suffix) = true)
  ∧ allowed_file (str ".png") = true
  ∧ allowed_file (str "a.tar.PNG") = true
  ∧ (∀ request w p,
       Saved p ∈ events_since w (snd (dispatch (generate request) w)) →
       ∃ file job_id base suffix,
         accepted request = Some file
         ∧ file_filename file = base ++ DOT :: suffix
         ∧ (DOT ∉ suffix)
         ∧ lower suffix ∈ ALLOWED_EXTENSIONS
         ∧ length job_id = 32%nat
         ∧ Forall (λ c, is_hex c = true) job_id
         ∧ p = UPLOAD_DIR ++ [job_id ++ str "." ++ lower suffix]
         ∧ direct_child UPLOAD_DIR p).
Proof.
  assert (Hlast : ∀ base suffix, DOT ∉ suffix →
            allowed_file (base ++ DOT :: suffix)
            = in_strs (lower suffix) ALLOWED_EXTENSIONS).
  { intros base suffix Hdot. unfold allowed_file, rsplit1.
    rewrite (proj2 (rsplit_last_spec DOT _ base suffix)) by done.
    cbn [lookup list_lookup].
    replace (in_chars DOT (base ++ DOT :: suffix)) with true; [done|].
    symmetry. apply in_chars_spec. rewrite elem_of_app, elem_of_cons. auto. }
  split_and!.
  - exact Hlast.
  - intros base suffix Hdot Hin. rewrite Hlast by done.
    by apply in_strs_spec.
  - by vm_compute.
  - by vm_compute.
  - intros request w p Hin.
    destruct (accepted request) as [file|] eqn:Hacc.
    + destruct (job_events _ _ w Hacc) as (rest & Hev & Hrest).
      rewrite Hev in Hin.
      assert (p = upload_path file w) as ->.
      { apply elem_of_cons in Hin as [[= ->]|Hin]; [done|].
        apply elem_of_cons in Hin as [[=]|Hin].
        destruct Hrest as [-> | ->].
        - by apply elem_of_nil in Hin.
        - by apply list_elem_of_singleton in Hin. }
      apply accepted_inv in Hacc as Hinv.
      destruct Hinv as (_ & _ & _ & Hok & _).
      apply allowed_file_suffix in Hok as Hsuf.
      destruct Hsuf as (base & suffix & Hr & Hext).
      pose proof (upload_path_child file w Hok) as Hchild.
      unfold upload_path, stored_ext in *. rewrite Hr in *.
      apply rsplit_last_spec in Hr as [Hname Hdot].
      exists file, (job_id_of w), base, suffix.
      split_and!;
        [done|done|done|done|apply job_id_length|apply job_id_hex|done|done].
    + destruct (job_refused _ w Hacc)
        as (r & w' & Hrun & _ & _ & _ & _ & Hlog & _).
      rewrite (dispatch_inr _ _ _ _ Hrun) in Hin. cbn [snd] in Hin.
      rewrite (events_since_same _ _ Hlog) in Hin.
      by apply elem_of_nil in Hin.
Qed.

(** [C4] The tool is run once, without a shell and with a limit of 120
    seconds.  When the limit is exceeded, the child itself is killed and
    reaped, the request queues the "timed out" message and goes back to
    the form, and the upload is removed; the processes the child had
    started are not signalled and stay alive. *)
Theorem process_runner_contract (request : Request) (file : FileStorage)
    (w : World) :
  accepted request = Some file →
  let r := fst (dispatch (generate request) w) in
  let w' := snd (dispatch (generate request) w) in
  (∃ call, timeout call = 120 ∧ shell call = false
     ∧ List.filter (λ ev, match ev with Ran _ => true | _ => false end)
         (events_since w w') = [Ran call])
  ∧ (∀ e, tool_answer request file w = Started e
          ∨ tool_answer request file w = Garbled e →
          expired 120 (runtime e) = true →
          body r = Redirect url_generate
          ∧ flashes w' = flashes w ++
              [str "Font generation timed out. Please try again."]
          ∧ fs w' !! upload_path file w = None
          ∧ procs w' = started e ++ procs w).
Proof.
  intros Hacc. cbv zeta. split.
  - destruct (job_events _ _ w Hacc) as (rest & Hev & Hrest).
    exists (tool_call request file w). rewrite Hev.
    split_and!; [done..|]. by destruct Hrest as [-> | ->].
  - intros e [Hans|Hans] Hexp.
    + destruct (job_outcome _ _ _ _ Hacc Hans)
        as (r & w' & Hrun & _ & Hbody & Hfl & Hfs & Hpr & _).
      rewrite Hexp in Hbody, Hfl.
      rewrite (dispatch_inr _ _ _ _ Hrun). cbn [fst snd].
      split_and!; [done..| |done]. rewrite Hfs. apply lookup_delete_eq.
    + destruct (job_outcome_garbled _ _ _ _ Hacc Hans)
        as (res & w' & Hrun & Hpr & _ & Hcase).
      rewrite Hexp in Hcase. destruct Hcase as (-> & Hfl & Hfs & _).
      rewrite (dispatch_inr _ _ _ _ Hrun). cbn [fst snd].
      split_and!; [done..| |done]. rewrite Hfs. apply lookup_delete_eq.
Qed.

(** [C3] What is left of the upload when [generate] returns, by what came
    of running the tool.  Unlinking with [missing_ok] never raises,
    whether the file is there or not.  On the five paths that end in a
    redirect (no executable, timeout, non-zero status, zero status
    without output, success) nothing is left at the upload's path.  But
    when [subprocess.run] raises an exception the view does not handle,
    none of the three unlinks is reached: a tool that may not be run
    leaves the upload as it was stored, and a tool whose output is not
    text leaves whatever it left at that path itself. *)
Theorem upload_cleanup_by_outcome (request : Request) (file : FileStorage)
    (w : World) :
  accepted request = Some file →
  let w' := snd (dispatch (generate request) w) in
  (∀ p w0, fst (unlink p true w0) = inr tt)
  ∧ match tool_answer request file w with
    | NoSuchFile | Started _ => fs w' !! upload_path file w = None
    | NotExecutable => fs w' !! upload_path file w = Some (stream file)
    | Garbled e =>
        fs w' !! upload_path file w
        = if expired 120 (runtime e) then None
          else files e !! upload_path file w
    end.
Proof.
  intros Hacc. cbv zeta. split.
  - intros p w0. unfold unlink. by destruct (fs w0 !! p).
  - rewrite dispatch_world.
    destruct (tool_answer request file w) as [| |e|e] eqn:Hans.
    + destruct (job_outcome_missing _ _ _ Hacc Hans)
        as (r & w' & Hrun & _ & _ & _ & Hfs & _).
      rewrite Hrun. cbn [snd]. rewrite Hfs. apply lookup_delete_eq.
    + destruct (job_outcome_denied _ _ _ Hacc Hans)
        as (w' & Hrun & _ & Hfs & _).
      rewrite Hrun. cbn [snd]. rewrite Hfs. apply lookup_insert_eq.
    + destruct (job_outcome _ _ _ _ Hacc Hans)
        as (r & w' & Hrun & _ & _ & _ & Hfs & _).
      rewrite Hrun. cbn [snd]. rewrite Hfs. apply lookup_delete_eq.
    + destruct (job_outcome_garbled _ _ _ _ Hacc Hans)
        as (res & w' & Hrun & _ & _ & Hcase).
      rewrite Hrun. cbn [snd].
      destruct (expired 120 (runtime e));
        destruct Hcase as (_ & _ & Hfs & _); rewrite Hfs; [|done].
      apply lookup_delete_eq.
Qed.

End JobClaims.

(** ** The results on the sample deployment *)

(** Reads one component of the answer of a sample tool. *)
Ltac answer_has Hans proj value Hname :=
  match type of Hans with
  | ?answer = _ ?e =>
      assert (Hname : proj e = value);
      [assert (match answer with
               | Started x | Garbled x => Some (proj x)
               | _ => None
               end = Some value) as Hname by (by vm_compute);
       rewrite Hans in Hname; by injection Hname
      |]
  end.

(** A submission without a file part is sent back with one message. *)
Lemma generate_refusal_has_no_effect_witness :
  let _ : Unicode := ascii_only in
  let _ : Deployment := deploy tool_works in
  accepted bare_request = None
  ∧ fs (snd (dispatch (generate bare_request) world_with_font))
    = fs world_with_font.
Proof.
  cbv zeta.
  assert (Hacc : @accepted ascii_only bare_request = None) by (by vm_compute).
  split; [exact Hacc|].
  apply (@generate_refusal_has_no_effect ascii_only (deploy tool_works)
           bare_request world_with_font Hacc).
Defined.

(** The sample upload is gone after a successful job. *)
Lemma generate_leaves_no_upload_witness :
  let _ : Unicode := ascii_only in
  let _ : Deployment := deploy tool_works in
  fs (snd (dispatch (generate sample_request) empty_world))
  !! upload_path sample_upload empty_world = None.
Proof.
  cbv zeta.
  apply (@generate_leaves_no_upload ascii_only (deploy tool_works)
           sample_request empty_world).
  - vm_compute. apply list_elem_of_here.
  - by vm_compute.
Defined.

(** The sample upload ["scan.JPG"] is stored under a [.jpg] name. *)
Lemma generate_stores_upload_witness :
  let _ : Unicode := ascii_only in
  let _ : Deployment := deploy tool_works in
  accepted sample_request = Some sample_upload
  ∧ ∃ job_id base suffix rest,
      events_since empty_world
        (snd (dispatch (generate sample_request) empty_world))
      = Saved (UPLOAD_DIR ++ [job_id ++ str "." ++ lower suffix]) :: rest
      ∧ file_filename sample_upload = base ++ DOT :: suffix.
Proof.
  cbv zeta.
  assert (Hacc : @accepted ascii_only sample_request = Some sample_upload)
    by (by vm_compute).
  split; [exact Hacc|].
  destruct (@generate_stores_upload ascii_only (deploy tool_works)
              sample_request sample_upload empty_world Hacc)
    as (job_id & base & suffix & rest & Hev & _ & _ & Hname & _).
  exists job_id, base, suffix, rest. by split.
Defined.

(** The sample job runs the tool with the three sample inputs. *)
Lemma generate_runs_tool_once_witness :
  let _ : Unicode := ascii_only in
  let _ : Deployment := deploy tool_works in
  accepted sample_request = Some sample_upload
  ∧ field sample_request "family" ≠ [].
Proof.
  cbv zeta.
  assert (Hacc : @accepted ascii_only sample_request = Some sample_upload)
    by (by vm_compute).
  split; [exact Hacc|].
  destruct (@generate_runs_tool_once ascii_only (deploy tool_works)
              sample_request sample_upload empty_world Hacc)
    as (img & rest & _ & _ & Hfam & _).
  exact Hfam.
Defined.

(** Without the tool the sample job leaves no file and no process. *)
Lemma generate_tool_missing_witness :
  let _ : Unicode := ascii_only in
  let _ : Deployment := deploy tool_missing in
  accepted sample_request = Some sample_upload
  ∧ tool_answer sample_request sample_upload empty_world = NoSuchFile
  ∧ procs (snd (dispatch (generate sample_request) empty_world)) = [].
Proof.
  cbv zeta.
  assert (Hacc : @accepted ascii_only sample_request = Some sample_upload)
    by (by vm_compute).
  assert (Hans : @tool_answer ascii_only (deploy tool_missing) sample_request
                   sample_upload empty_world = NoSuchFile) by (by vm_compute).
  split_and!; [exact Hacc|exact Hans|].
  apply (@generate_tool_missing ascii_only (deploy tool_missing)
           sample_request sample_upload empty_world Hacc Hans).
Defined.

(** With the hanging tool the two processes it started outlive the job. *)
Lemma generate_timeout_witness :
  let _ : Unicode := ascii_only in
  let _ : Deployment := deploy tool_hangs in
  accepted sample_request = Some sample_upload
  ∧ procs (snd (dispatch (generate sample_request) empty_world))
    = [Process 7002 [Process 7003 []]].
Proof.
  cbv zeta.
  assert (Hacc : @accepted ascii_only sample_request = Some sample_upload)
    by (by vm_compute).
  split; [exact Hacc|].
  destruct (@tool_answer ascii_only (deploy tool_hangs) sample_request
              sample_upload empty_world) as [| |e|e] eqn:Hans;
    [by vm_compute in Hans|by vm_compute in Hans| |by vm_compute in Hans].
  answer_has Hans runtime (@None N) Hrt.
  answer_has Hans started [Process 7002 [Process 7003 []]] Hst.
  assert (Hexp : expired 120 (runtime e) = true) by (by rewrite Hrt).
  destruct (@generate_timeout ascii_only (deploy tool_hangs) sample_request
              sample_upload empty_world e Hacc Hans Hexp)
    as (_ & _ & _ & Hpr).
  rewrite Hpr, Hst. reflexivity.
Defined.

(** The failing tool's standard error is reported, stripped. *)
Lemma generate_tool_failure_witness :
  let _ : Unicode := ascii_only in
  let _ : Deployment := deploy tool_fails in
  accepted sample_request = Some sample_upload
  ∧ flashes (snd (dispatch (generate sample_request) empty_world))
    = [str "handwrite failed: bad image"].
Proof.
  cbv zeta.
  assert (Hacc : @accepted ascii_only sample_request = Some sample_upload)
    by (by vm_compute).
  split; [exact Hacc|].
  destruct (@tool_answer ascii_only (deploy tool_fails) sample_request
              sample_upload empty_world) as [| |e|e] eqn:Hans;
    [by vm_compute in Hans|by vm_compute in Hans| |by vm_compute in Hans].
  answer_has Hans runtime (Some 2) Hrt.
  answer_has Hans returncode 1%Z Hcode.
  answer_has Hans stderr (str " bad image ") Herr.
  assert (Hexp : expired 120 (runtime e) = false) by (by rewrite Hrt).
  assert (Hrc : returncode e ≠ 0%Z) by (by rewrite Hcode).
  destruct (@generate_tool_failure ascii_only (deploy tool_fails)
              sample_request sample_upload empty_world e Hacc Hans Hexp Hrc)
    as (_ & Hfl & _).
  rewrite Hfl, Herr. by vm_compute.
Defined.

(** The well-behaved tool sends the sample job on to its download page. *)
Lemma generate_success_iff_witness :
  let _ : Unicode := ascii_only in
  let _ : Deployment := deploy tool_works in
  accepted sample_request = Some sample_upload
  ∧ body (fst (dispatch (generate sample_request) empty_world))
    = Redirect (url_download_font (field sample_request "filename")).
Proof.
  cbv zeta.
  assert (Hacc : @accepted ascii_only sample_request = Some sample_upload)
    by (by vm_compute).
  split; [exact Hacc|].
  destruct (@tool_answer ascii_only (deploy tool_works) sample_request
              sample_upload empty_world) as [| |e|e] eqn:Hans;
    [by vm_compute in Hans|by vm_compute in Hans| |by vm_compute in Hans].
  answer_has Hans runtime (Some 2) Hrt.
  answer_has Hans returncode 0%Z Hcode.
  answer_has Hans
    (λ e, files e !! (@OUTPUT_DIR (deploy tool_works)
                        ++ [@field ascii_only sample_request "filename"
                            ++ str ".ttf"]))
    (Some [0; 1; 0; 0]) Hdata.
  assert (Hexp : expired 120 (runtime e) = false) by (by rewrite Hrt).
  destruct (@generate_success_iff ascii_only (deploy tool_works)
              sample_request sample_upload empty_world e Hacc Hans Hexp)
    as (Hyes & _ & _).
  apply Hyes. split; [done|]. rewrite Hdata. by eexists.
Defined.

(** The font of the sample job is handed out with its four bytes and is
    still there afterwards. *)
Lemma generate_then_retrieve_witness :
  let _ : Unicode := ascii_only in
  let _ : Deployment := deploy tool_works in
  accepted sample_request = Some sample_upload
  ∧ fs (snd (dispatch (generate sample_request) empty_world))
    !! artifact_path (field sample_request "filename")
    = Some [0; 1; 0; 0].
Proof.
  cbv zeta.
  assert (Hacc : @accepted ascii_only sample_request = Some sample_upload)
    by (by vm_compute).
  split; [exact Hacc|].
  destruct (@tool_answer ascii_only (deploy tool_works) sample_request
              sample_upload empty_world) as [| |e|e] eqn:Hans;
    [by vm_compute in Hans|by vm_compute in Hans| |by vm_compute in Hans].
  answer_has Hans runtime (Some 2) Hrt.
  answer_has Hans returncode 0%Z Hcode.
  answer_has Hans
    (λ e, files e !! @artifact_path (deploy tool_works)
                       (@field ascii_only sample_request "filename"))
    (Some [0; 1; 0; 0]) Hdata.
  assert (Hexp : expired 120 (runtime e) = false) by (by rewrite Hrt).
  destruct (@generate_then_retrieve ascii_only (deploy tool_works)
              sample_request sample_upload empty_world e _ Completed
              Hacc Hans Hexp Hcode Hdata)
    as (_ & _ & _ & _ & _ & Hthere).
  exact Hthere.
Defined.

(** A tool that writes nothing passes off the font that was there. *)
Lemma generate_accepts_stale_font_witness :
  let _ : Unicode := ascii_only in
  let _ : Deployment := deploy tool_silent in
  accepted sample_request = Some sample_upload
  ∧ body (fst (dispatch (generate sample_request) world_with_font))
    = Redirect (url_download_font (field sample_request "filename")).
Proof.
  cbv zeta.
  assert (Hacc : @accepted ascii_only sample_request = Some sample_upload)
    by (by vm_compute).
  split; [exact Hacc|].
  destruct (@tool_answer ascii_only (deploy tool_silent) sample_request
              sample_upload world_with_font) as [| |e|e] eqn:Hans;
    [by vm_compute in Hans|by vm_compute in Hans| |by vm_compute in Hans].
  answer_has Hans runtime (Some 2) Hrt.
  answer_has Hans returncode 0%Z Hcode.
  assert (Hfiles : files e
            = <[@upload_path ascii_only (deploy tool_silent)
                  sample_upload world_with_font := stream sample_upload]>
                (fs world_with_font)).
  { unfold tool_answer in Hans. by injection Hans as <-. }
  assert (Hold : fs world_with_font
                 !! @artifact_path (deploy tool_silent)
                      (@field ascii_only sample_request "filename")
                 = Some [0; 1; 0; 0]) by (by vm_compute).
  assert (Hexp : expired 120 (runtime e) = false) by (by rewrite Hrt).
  apply (@generate_accepts_stale_font ascii_only (deploy tool_silent)
           sample_request sample_upload world_with_font e _
           Hacc Hans Hexp Hcode Hfiles Hold).
Defined.

(** An unknown key deletes nothing. *)
Lemma serve_font_file_refusal_keeps_files_witness :
  let _ : Unicode := ascii_only in
  let _ : Deployment := deploy tool_works in
  snd (serve (serve_font_file (str "other")) Completed world_with_font)
  = world_with_font.
Proof.
  cbv zeta.
  apply (@serve_font_file_refusal_keeps_files ascii_only (deploy tool_works)
           (str "other") Completed world_with_font).
  by vm_compute.
Defined.

(** The stored font is served from inside the output directory. *)
Lemma serve_font_file_stays_inside_witness :
  let _ : Unicode := ascii_only in
  let _ : Deployment := deploy tool_works in
  direct_child OUTPUT_DIR (OUTPUT_DIR ++ [str "myfont" ++ str ".ttf"]).
Proof.
  cbv zeta.
  assert (Hok : status_of (fst (serve
            (@serve_font_file ascii_only (deploy tool_works) (str "myfont"))
            Completed world_with_font)) = 200%N) by (by vm_compute).
  destruct (@serve_font_file_stays_inside ascii_only (deploy tool_works)
              (str "myfont") Completed world_with_font Hok)
    as (data & _ & _ & Hchild & _).
  exact Hchild.
Defined.

(** A tool that may not be run leaves the sample upload behind. *)
Lemma generate_not_executable_witness :
  let _ : Unicode := ascii_only in
  let _ : Deployment := deploy tool_locked in
  accepted sample_request = Some sample_upload
  ∧ tool_answer sample_request sample_upload empty_world = NotExecutable
  ∧ fs (snd (dispatch (generate sample_request) empty_world))
    !! upload_path sample_upload empty_world = Some (stream sample_upload).
Proof.
  cbv zeta.
  assert (Hacc : @accepted ascii_only sample_request = Some sample_upload)
    by (by vm_compute).
  assert (Hans : @tool_answer ascii_only (deploy tool_locked) sample_request
                   sample_upload empty_world = NotExecutable)
    by (by vm_compute).
  split_and!; [exact Hacc|exact Hans|].
  apply (@generate_not_executable ascii_only (deploy tool_locked)
           sample_request sample_upload empty_world Hacc Hans).
Defined.

(** A tool whose output is not text makes the sample job end in 500. *)
Lemma generate_undecodable_output_witness :
  let _ : Unicode := ascii_only in
  let _ : Deployment := deploy tool_garbles in
  accepted sample_request = Some sample_upload
  ∧ body (fst (dispatch (generate sample_request) empty_world)) = Status 500.
Proof.
  cbv zeta.
  assert (Hacc : @accepted ascii_only sample_request = Some sample_upload)
    by (by vm_compute).
  split; [exact Hacc|].
  destruct (@tool_answer ascii_only (deploy tool_garbles) sample_request
              sample_upload empty_world) as [| |e|e] eqn:Hans;
    [by vm_compute in Hans|by vm_compute in Hans|by vm_compute in Hans|].
  answer_has Hans runtime (Some 2) Hrt.
  assert (Hexp : expired 120 (runtime e) = false) by (by rewrite Hrt).
  apply (@generate_undecodable_output ascii_only (deploy tool_garbles)
           sample_request sample_upload empty_world e Hacc Hans Hexp).
Defined.

(** ** The claims on the sample deployment *)

(** A submission without a file part changes no file. *)
Lemma refused_submission_runs_nothing_witness :
  let _ : Unicode := ascii_only in
  let _ : Deployment := deploy tool_works in
  method bare_request ≠ GET
  ∧ fs (snd (dispatch (generate bare_request) world_with_font))
    = fs world_with_font.
Proof.
  cbv zeta.
  assert (Hm : method bare_request ≠ GET) by discriminate.
  split; [exact Hm|].
  apply (@refused_submission_runs_nothing ascii_only (deploy tool_works)
           bare_request world_with_font Hm).
  left. reflexivity.
Defined.

(** A tool that exits with status zero and writes nothing is a failure. *)
Lemma success_needs_the_output_file_witness :
  let _ : Unicode := ascii_only in
  let _ : Deployment := deploy tool_silent in
  accepted sample_request = Some sample_upload
  ∧ body (fst (dispatch (generate sample_request) empty_world))
    = Redirect url_generate.
Proof.
  cbv zeta.
  assert (Hacc : @accepted ascii_only sample_request = Some sample_upload)
    by (by vm_compute).
  split; [exact Hacc|].
  destruct (@tool_answer ascii_only (deploy tool_silent) sample_request
              sample_upload empty_world) as [| |e|e] eqn:Hans;
    [by vm_compute in Hans|by vm_compute in Hans| |by vm_compute in Hans].
  answer_has Hans runtime (Some 2) Hrt.
  answer_has Hans returncode 0%Z Hcode.
  answer_has Hans
    (λ e, files e !! (@OUTPUT_DIR (deploy tool_silent)
                        ++ [@field ascii_only sample_request "filename"
                            ++ str ".ttf"]))
    (@None (list N)) Hno.
  assert (Hexp : expired 120 (runtime e) = false) by (by rewrite Hrt).
  destruct (@success_needs_the_output_file ascii_only (deploy tool_silent)
              sample_request empty_world) as [_ Hfail].
  apply (Hfail sample_upload e Hacc Hans Hexp Hcode Hno).
Defined.

(** Of ["a.tar.PNG"] only ["PNG"] is looked at. *)
Lemma extension_check_and_stored_name_witness :
  let _ : Unicode := ascii_only in
  let _ : Deployment := deploy tool_works in
  (DOT ∉ str "PNG")
  ∧ allowed_file (str "a.tar" ++ DOT :: str "PNG")
    = in_strs (lower (str "PNG")) ALLOWED_EXTENSIONS.
Proof.
  cbv zeta.
  assert (Hdot : DOT ∉ str "PNG")
    by (apply (bool_decide_unpack _); by vm_compute).
  split; [exact Hdot|].
  destruct (@extension_check_and_stored_name ascii_only (deploy tool_works))
    as [Hlast _].
  apply (Hlast (str "a.tar") (str "PNG") Hdot).
Defined.

(** With the hanging tool the sample job runs it once and times out. *)
Lemma process_runner_contract_witness :
  let _ : Unicode := ascii_only in
  let _ : Deployment := deploy tool_hangs in
  accepted sample_request = Some sample_upload
  ∧ flashes (snd (dispatch (generate sample_request) empty_world))
    = flashes empty_world ++
        [str "Font generation timed out. Please try again."].
Proof.
  cbv zeta.
  assert (Hacc : @accepted ascii_only sample_request = Some sample_upload)
    by (by vm_compute).
  split; [exact Hacc|].
  destruct (@tool_answer ascii_only (deploy tool_hangs) sample_request
              sample_upload empty_world) as [| |e|e] eqn:Hans;
    [by vm_compute in Hans|by vm_compute in Hans| |by vm_compute in Hans].
  answer_has Hans runtime (@None N) Hrt.
  assert (Hexp : expired 120 (runtime e) = true) by (by rewrite Hrt).
  destruct (@process_runner_contract ascii_only (deploy tool_hangs)
              sample_request sample_upload empty_world Hacc) as [_ Hlate].
  destruct (Hlate e (or_introl Hans) Hexp) as (_ & Hfl & _).
  exact Hfl.
Defined.

(** After the hanging tool has been killed, the two processes it had
    started are alive although none was before the request. *)
Lemma timeout_leaves_descendants :
  let w' := snd (dispatch (@generate ascii_only (deploy tool_hangs)
                             sample_request) empty_world) in
  flashes w' = [str "Font generation timed out. Please try again."]
  ∧ procs empty_world = []
  ∧ procs w' = [Process 7002 [Process 7003 []]].
Proof. by vm_compute. Qed.

(** With a tool that may not be run the sample upload stays. *)
Lemma upload_cleanup_by_outcome_witness :
  let _ : Unicode := ascii_only in
  let _ : Deployment := deploy tool_locked in
  accepted sample_request = Some sample_upload
  ∧ status_of (fst (dispatch (generate sample_request) empty_world)) = 500
  ∧ fs (snd (dispatch (generate sample_request) empty_world))
    !! upload_path sample_upload empty_world = Some [255; 216; 255].
Proof.
  cbv zeta.
  assert (Hacc : @accepted ascii_only sample_request = Some sample_upload)
    by (by vm_compute).
  split_and!; [exact Hacc|by vm_compute|].
  destruct (@upload_cleanup_by_outcome ascii_only (deploy tool_locked)
              sample_request sample_upload empty_world Hacc) as [_ Hleft].
  exact Hleft.
Defined.
